(** * Snapy: the Appwrite API wrappers of [src/lib/appwrite/api.ts]

    A shallow embedding of the exported functions of [api.ts].  Every
    function of that module is a short sequence of calls into the
    Appwrite SDK, wrapped in [try { ... } catch (error) { console.log(error) }].

    The SDK is the environment of the program: it is modelled as an
    oracle that answers each call, given the calls made so far, with a
    JavaScript completion (a value, or a thrown value).  The state that
    the functions thread is the list of SDK calls issued and the lines
    written to the console. *)

From Stdlib Require Import String Ascii List Bool PrimFloat Arith Lia.
From Stdlib Require Import DecimalString.
Import ListNotations.
Open Scope string_scope.

#[local] Set Warnings "-register-all".

(** ** JavaScript values *)

(** The values that flow through [api.ts]: primitives, arrays, plain
    objects (records of the SDK, [File] and [URL] objects), function
    objects (the [Error] constructor of [throw Error]) and error objects
    thrown by the runtime or by the SDK. *)
Inductive value : Type :=
| VUndefined
| VNull
| VBool (b : bool)
| VNum (n : float)
| VStr (s : string)
| VArr (items : list value)
| VObj (fields : list (string * value))
| VFun (name : string)
| VError (name message : string).

(** A completion: the statement or call returned a value, or threw one. *)
Inductive Completion (A : Type) : Type :=
| Normal (a : A)
| Throw (e : value).
Arguments Normal {A} a.
Arguments Throw {A} e.

(** JavaScript numbers are IEEE binary64; [0], [-0] and [NaN] are falsy. *)
Definition truthy_number (n : float) : bool :=
  negb (PrimFloat.is_zero n || PrimFloat.is_nan n).

(** ToBoolean. *)
Definition truthy (v : value) : bool :=
  match v with
  | VUndefined | VNull => false
  | VBool b => b
  | VNum n => truthy_number n
  | VStr s => negb (s =? "")
  | VArr _ | VObj _ | VFun _ | VError _ _ => true
  end.

(** The operator [!]. *)
Definition falsy (v : value) : bool := negb (truthy v).

(** The constructor thrown by [throw Error]. *)
Definition Error : value := VFun "Error".

(** What the runtime throws on a property read of [undefined] or [null]. *)
Definition TypeError : value :=
  VError "TypeError" "Cannot read properties of undefined".

Fixpoint lookup (p : string) (fields : list (string * value)) : value :=
  match fields with
  | [] => VUndefined
  | (k, v) :: rest => if k =? p then v else lookup p rest
  end.

(** The own property [p] of a value that is neither [undefined] nor
    [null]; a missing property reads as [undefined]. *)
Definition own_prop (o : value) (p : string) : value :=
  match o with
  | VObj fields => lookup p fields
  | VFun name => if p =? "name" then VStr name else VUndefined
  | VError name message =>
      if p =? "name" then VStr name
      else if p =? "message" then VStr message
      else VUndefined
  | _ => VUndefined
  end.

(** [o.p] *)
Definition get_prop (o : value) (p : string) : Completion value :=
  match o with
  | VUndefined | VNull => Throw TypeError
  | _ => Normal (own_prop o p)
  end.

(** [o[i]] for an index [i]. *)
Definition get_index (o : value) (i : nat) : Completion value :=
  match o with
  | VUndefined | VNull => Throw TypeError
  | VArr items => Normal (nth i items VUndefined)
  | VStr s =>
      Normal (match String.get i s with
              | Some c => VStr (String c "")
              | None => VUndefined
              end)
  | VObj fields => Normal (lookup (NilEmpty.string_of_uint (Nat.to_uint i)) fields)
  | _ => Normal VUndefined
  end.

(** An optional string parameter or field ([p?: string]). *)
Definition of_option (o : option string) : value :=
  match o with
  | Some s => VStr s
  | None => VUndefined
  end.

(** ** Tag parsing: [replace(/ /g, "")] and [split(",")] *)

(** [s.replace(/ /g, "")]: every space character is dropped. *)
Fixpoint remove_spaces (s : string) : string :=
  match s with
  | EmptyString => EmptyString
  | String c rest =>
      if Ascii.eqb c " "%char then remove_spaces rest
      else String c (remove_spaces rest)
  end.

(** [s.split(sep)] for a one-character separator: the pieces between
    the separators, in order; the empty string splits into [[""]]. *)
Fixpoint split (sep : ascii) (s : string) : list string :=
  match s with
  | EmptyString => [EmptyString]
  | String c rest =>
      if Ascii.eqb c sep then EmptyString :: split sep rest
      else match split sep rest with
           | piece :: pieces => String c piece :: pieces
           | [] => [String c EmptyString]
           end
  end.

(** [post.tags?.replace(/ /g, "").split(",") || []]: the optional chain
    yields [undefined] when [tags] is absent, and an array (always
    truthy) otherwise. *)
Definition parse_tags (tags : option string) : list string :=
  match tags with
  | Some t => split ","%char (remove_spaces t)
  | None => []
  end.

Definition tags_value (tags : option string) : value :=
  VArr (map VStr (parse_tags tags)).

(** ** The SDK *)

(** [Query.*]: the query builders of the SDK. *)
Inductive Query : Type :=
| Query_equal (attribute : string) (v : value)
| Query_search (attribute : string) (v : string)
| Query_orderDesc (attribute : string)
| Query_limit (n : float)
| Query_cursorAfter (documentId : string).

(** The SDK methods that [api.ts] calls, with their arguments. *)
Inductive Call : Type :=
| account_create (userId : value) (email password name : string)
| account_createEmailPasswordSession (email password : string)
| account_get
| account_deleteSession (sessionId : string)
| avatars_getInitials (name : string)
| databases_createDocument (databaseId collectionId : string) (documentId data : value)
| databases_listDocuments (databaseId collectionId : string) (queries : list Query)
| databases_getDocument (databaseId collectionId : string) (documentId : value)
| databases_updateDocument (databaseId collectionId : string) (documentId : string) (data : value)
| databases_deleteDocument (databaseId collectionId : string) (documentId : value)
| storage_createFile (bucketId : string) (fileId file : value)
| storage_getFilePreview (bucketId : string) (fileId : value)
    (width height : float) (gravity : string) (quality : float)
| storage_deleteFile (bucketId : string) (fileId : value).

(** The calls that [api.ts] awaits: each is a request to the remote
    service.  [avatars.getInitials] and [storage.getFilePreview] are
    used synchronously. *)
Definition is_remote (c : Call) : bool :=
  match c with
  | avatars_getInitials _ | storage_getFilePreview _ _ _ _ _ _ => false
  | _ => true
  end.

(** An SDK call together with its completion. *)
Definition Event : Type := Call * Completion value.

(** [appwriteConfig] of [./config]. *)
Record Config : Type := {
  databaseId : string;
  storageId : string;
  userCollectionId : string;
  postCollectionId : string;
  savesCollectionId : string
}.

(** The environment: the configuration, the SDK (which answers a call
    knowing the events so far, most recent first), the identifier that
    [ID.unique()] generates at a given point of the history, and
    [Number.prototype.toString]. *)
Record Env : Type := {
  appwriteConfig : Config;
  sdk : list Event -> Call -> Completion value;
  ID_unique : list Event -> string;
  Number_toString : float -> string
}.

(** The state: the SDK events, most recent first, and the console,
    most recent line first. *)
Record World : Type := {
  events : list Event;
  console : list value
}.

Definition initial : World := {| events := []; console := [] |}.

(** ** The monad of [api.ts]: state and exceptions *)

Definition M (A : Type) : Type := World -> Completion A * World.

Definition ret {A} (a : A) : M A := fun w => (Normal a, w).

Definition throw {A} (e : value) : M A := fun w => (Throw e, w).

Definition bind {A B} (m : M A) (k : A -> M B) : M B :=
  fun w =>
    match m w with
    | (Normal a, w') => k a w'
    | (Throw e, w') => (Throw e, w')
    end.

Definition try_catch {A} (body : M A) (handler : value -> M A) : M A :=
  fun w =>
    match body w with
    | (Normal a, w') => (Normal a, w')
    | (Throw e, w') => handler e w'
    end.

Definition lift {A} (c : Completion A) : M A := fun w => (c, w).

Definition when (b : bool) (m : M unit) : M unit :=
  if b then m else ret tt.

Definition console_log (v : value) : M unit :=
  fun w => (Normal tt, {| events := events w; console := v :: console w |}).

Declare Scope js_scope.
Delimit Scope js_scope with js.
Notation "x <- m ;; k" := (bind m (fun x => k))
  (at level 61, m at next level, right associativity) : js_scope.
Notation "m ;; k" := (bind m (fun _ => k))
  (at level 61, right associativity) : js_scope.
Open Scope js_scope.

(** ** The request payloads of [@/types], as [api.ts] reads them *)

Module INewUser.
Record t : Type := {
  name : string;
  email : string;
  username : string;
  password : string
}.
End INewUser.

Module SignIn.
Record t : Type := {
  email : string;
  password : string
}.
End SignIn.

Module INewPost.
Record t : Type := {
  userId : string;
  caption : string;
  file : list value;
  location : option string;
  tags : option string
}.
End INewPost.

Module IUpdatePost.
Record t : Type := {
  postId : string;
  caption : string;
  imageId : string;
  imageUrl : value;
  file : list value;
  location : option string;
  tags : option string
}.
End IUpdatePost.

Module IUpdateUser.
Record t : Type := {
  userId : string;
  name : string;
  bio : string;
  imageId : string;
  imageUrl : value;
  file : list value
}.
End IUpdateUser.

(** The local [image] object of [updatePost] and [updateUser]. *)
Module Image.
Record t : Type := {
  imageUrl : value;
  imageId : value
}.
End Image.

(** [file[0]] and [file.length > 0] on a [File[]]. *)
Definition first_file (file : list value) : value := nth 0 file VUndefined.

Definition has_file (file : list value) : bool := (0 <? length file)%nat.

(** [pageParam]/[limit] as they reach [if (...)]: an absent optional
    number is [undefined]. *)
Definition truthy_opt_number (n : option float) : bool :=
  match n with
  | Some x => truthy_number x
  | None => false
  end.

(** ** The exported functions *)

Section Api.

Variable env : Env.

Let cfg : Config := appwriteConfig env.

(** An SDK call: the SDK answers, and the event is recorded. *)
Definition call (c : Call) : M value :=
  fun w =>
    let r := sdk env (events w) c in
    (r, {| events := (c, r) :: events w; console := console w |}).

(** [ID.unique()]: a local generator, which does not fail. *)
Definition unique : M value :=
  fun w => (Normal (VStr (ID_unique env (events w))), w).

(** *** saveUserToDB *)

Definition saveUserToDB_try (user : value) : M value :=
  id <- unique ;;
  newUser <- call (databases_createDocument
                     (databaseId cfg) (userCollectionId cfg) id user) ;;
  ret newUser.

Definition saveUserToDB (user : value) : M value :=
  try_catch (saveUserToDB_try user)
    (fun error => console_log error ;; ret VUndefined).

(** *** createUserAccount *)

Definition createUserAccount_try (user : INewUser.t) : M value :=
  id <- unique ;;
  newAccount <- call (account_create id (INewUser.email user)
                        (INewUser.password user) (INewUser.name user)) ;;
  when (falsy newAccount) (throw Error) ;;
  avatarUrl <- call (avatars_getInitials (INewUser.name user)) ;;
  accountId <- lift (get_prop newAccount "$id") ;;
  name <- lift (get_prop newAccount "name") ;;
  email <- lift (get_prop newAccount "email") ;;
  newUser <- saveUserToDB
               (VObj [("accountId", accountId);
                      ("name", name);
                      ("email", email);
                      ("username", VStr (INewUser.username user));
                      ("imageUrl", avatarUrl)]) ;;
  ret newUser.

Definition createUserAccount (user : INewUser.t) : M value :=
  try_catch (createUserAccount_try user)
    (fun error => console_log error ;; ret error).

(** *** signInAccount *)

Definition signInAccount_try (user : SignIn.t) : M value :=
  session <- call (account_createEmailPasswordSession
                     (SignIn.email user) (SignIn.password user)) ;;
  ret session.

Definition signInAccount (user : SignIn.t) : M value :=
  try_catch (signInAccount_try user)
    (fun error => console_log error ;; ret VUndefined).

(** *** getAccount *)

Definition getAccount_try : M value :=
  currentAccount <- call account_get ;;
  ret currentAccount.

Definition getAccount : M value :=
  try_catch getAccount_try
    (fun error => console_log error ;; ret VUndefined).

(** *** getCurrentUser *)

Definition getCurrentUser_try : M value :=
  currentAccount <- getAccount ;;
  when (falsy currentAccount) (throw Error) ;;
  accountId <- lift (get_prop currentAccount "$id") ;;
  currentUser <- call (databases_listDocuments
                         (databaseId cfg) (userCollectionId cfg)
                         [Query_equal "accountId" accountId]) ;;
  when (falsy currentUser) (throw Error) ;;
  documents <- lift (get_prop currentUser "documents") ;;
  lift (get_index documents 0).

Definition getCurrentUser : M value :=
  try_catch getCurrentUser_try
    (fun error => console_log error ;; ret VNull).

(** *** signOutAccount *)

Definition signOutAccount_try : M value :=
  session <- call (account_deleteSession "current") ;;
  ret session.

Definition signOutAccount : M value :=
  try_catch signOutAccount_try
    (fun error => console_log error ;; ret VUndefined).

(** *** uploadFile *)

Definition uploadFile_try (file : value) : M value :=
  id <- unique ;;
  uploadedFile <- call (storage_createFile (storageId cfg) id file) ;;
  ret uploadedFile.

Definition uploadFile (file : value) : M value :=
  try_catch (uploadFile_try file)
    (fun error => console_log error ;; ret VUndefined).

(** *** getFilePreview *)

Definition getFilePreview_try (fileId : value) : M value :=
  fileUrl <- call (storage_getFilePreview (storageId cfg) fileId
                     2000%float 2000%float "top" 100%float) ;;
  when (falsy fileUrl) (throw Error) ;;
  ret fileUrl.

Definition getFilePreview (fileId : value) : M value :=
  try_catch (getFilePreview_try fileId)
    (fun error => console_log error ;; ret VUndefined).

(** *** deleteFile *)

Definition deleteFile_try (fileId : value) : M value :=
  call (storage_deleteFile (storageId cfg) fileId) ;;
  ret (VObj [("status", VStr "ok")]).

Definition deleteFile (fileId : value) : M value :=
  try_catch (deleteFile_try fileId)
    (fun error => console_log error ;; ret VUndefined).

(** *** createPost *)

Definition createPost_try (post : INewPost.t) : M value :=
  uploadedFile <- uploadFile (first_file (INewPost.file post)) ;;
  when (falsy uploadedFile) (throw Error) ;;
  fileId <- lift (get_prop uploadedFile "$id") ;;
  fileUrl <- getFilePreview fileId ;;
  when (falsy fileUrl) (deleteFile fileId ;; throw Error) ;;
  let tags := tags_value (INewPost.tags post) in
  id <- unique ;;
  newPost <- call (databases_createDocument
                     (databaseId cfg) (postCollectionId cfg) id
                     (VObj [("creator", VStr (INewPost.userId post));
                            ("caption", VStr (INewPost.caption post));
                            ("imageUrl", fileUrl);
                            ("imageId", fileId);
                            ("location", of_option (INewPost.location post));
                            ("tags", tags)])) ;;
  when (falsy newPost) (deleteFile fileId ;; throw Error) ;;
  ret newPost.

Definition createPost (post : INewPost.t) : M value :=
  try_catch (createPost_try post)
    (fun error => console_log error ;; ret VUndefined).

(** *** searchPosts *)

Definition searchPosts_try (searchTerm : string) : M value :=
  posts <- call (databases_listDocuments
                   (databaseId cfg) (postCollectionId cfg)
                   [Query_search "caption" searchTerm]) ;;
  when (falsy posts) (throw Error) ;;
  ret posts.

Definition searchPosts (searchTerm : string) : M value :=
  try_catch (searchPosts_try searchTerm)
    (fun error => console_log error ;; ret VUndefined).

(** *** getInfinitePosts *)

Definition getInfinitePosts_try (queries : list Query) : M value :=
  posts <- call (databases_listDocuments
                   (databaseId cfg) (postCollectionId cfg) queries) ;;
  when (falsy posts) (throw Error) ;;
  ret posts.

(** The statements before the [try]: the query array and its [push]. *)
Definition getInfinitePosts_queries (pageParam : float) : list Query :=
  let queries := [Query_orderDesc "$updatedAt"; Query_limit 9%float] in
  if truthy_number pageParam
  then (queries ++ [Query_cursorAfter (Number_toString env pageParam)])%list
  else queries.

Definition getInfinitePosts (pageParam : float) : M value :=
  let queries := getInfinitePosts_queries pageParam in
  try_catch (getInfinitePosts_try queries)
    (fun error => console_log error ;; ret VUndefined).

(** *** getPostById *)

Definition getPostById_try (postId : option string) : M value :=
  post <- call (databases_getDocument
                  (databaseId cfg) (postCollectionId cfg) (of_option postId)) ;;
  when (falsy post) (throw Error) ;;
  ret post.

Definition getPostById (postId : option string) : M value :=
  when (falsy (of_option postId)) (throw Error) ;;
  try_catch (getPostById_try postId)
    (fun error => console_log error ;; ret VUndefined).

(** *** updatePost *)

Definition updatePost_try (post : IUpdatePost.t) : M value :=
  let hasFileToUpdate := has_file (IUpdatePost.file post) in
  let image := {| Image.imageUrl := IUpdatePost.imageUrl post;
                  Image.imageId := VStr (IUpdatePost.imageId post) |} in
  image <- (if hasFileToUpdate then
              uploadedFile <- uploadFile (first_file (IUpdatePost.file post)) ;;
              when (falsy uploadedFile) (throw Error) ;;
              fileId <- lift (get_prop uploadedFile "$id") ;;
              fileUrl <- getFilePreview fileId ;;
              when (falsy fileUrl) (deleteFile fileId ;; throw Error) ;;
              ret {| Image.imageUrl := fileUrl; Image.imageId := fileId |}
            else ret image) ;;
  let tags := tags_value (IUpdatePost.tags post) in
  updatedPost <- call (databases_updateDocument
                         (databaseId cfg) (postCollectionId cfg)
                         (IUpdatePost.postId post)
                         (VObj [("caption", VStr (IUpdatePost.caption post));
                                ("imageUrl", Image.imageUrl image);
                                ("imageId", Image.imageId image);
                                ("location", of_option (IUpdatePost.location post));
                                ("tags", tags)])) ;;
  when (falsy updatedPost)
    (when hasFileToUpdate (deleteFile (Image.imageId image) ;; ret tt) ;;
     throw Error) ;;
  when hasFileToUpdate
    (deleteFile (VStr (IUpdatePost.imageId post)) ;; ret tt) ;;
  ret updatedPost.

Definition updatePost (post : IUpdatePost.t) : M value :=
  try_catch (updatePost_try post)
    (fun error => console_log error ;; ret VUndefined).

(** *** deletePost *)

Definition deletePost_try (postId imageId : option string) : M value :=
  statusCode <- call (databases_deleteDocument
                        (databaseId cfg) (postCollectionId cfg)
                        (of_option postId)) ;;
  when (falsy statusCode) (throw Error) ;;
  deleteFile (of_option imageId) ;;
  ret (VObj [("status", VStr "Ok")]).

Definition deletePost (postId imageId : option string) : M value :=
  if falsy (of_option postId) || falsy (of_option imageId) then ret VUndefined
  else
    try_catch (deletePost_try postId imageId)
      (fun error => console_log error ;; ret VUndefined).

(** *** likePost *)

Definition likePost_try (postId : string) (likesArray : list string) : M value :=
  updatedPost <- call (databases_updateDocument
                         (databaseId cfg) (postCollectionId cfg) postId
                         (VObj [("likes", VArr (map VStr likesArray))])) ;;
  when (falsy updatedPost) (throw Error) ;;
  ret updatedPost.

Definition likePost (postId : string) (likesArray : list string) : M value :=
  try_catch (likePost_try postId likesArray)
    (fun error => console_log error ;; ret VUndefined).

(** *** savePost *)

Definition savePost_try (userId postId : string) : M value :=
  id <- unique ;;
  updatedPost <- call (databases_createDocument
                         (databaseId cfg) (savesCollectionId cfg) id
                         (VObj [("user", VStr userId);
                                ("post", VStr postId)])) ;;
  when (falsy updatedPost) (throw Error) ;;
  ret updatedPost.

Definition savePost (userId postId : string) : M value :=
  try_catch (savePost_try userId postId)
    (fun error => console_log error ;; ret VUndefined).

(** *** deleteSavedPost *)

Definition deleteSavedPost_try (savedRecordId : string) : M value :=
  statusCode <- call (databases_deleteDocument
                        (databaseId cfg) (savesCollectionId cfg)
                        (VStr savedRecordId)) ;;
  when (falsy statusCode) (throw Error) ;;
  ret (VObj [("status", VStr "Ok")]).

Definition deleteSavedPost (savedRecordId : string) : M value :=
  try_catch (deleteSavedPost_try savedRecordId)
    (fun error => console_log error ;; ret VUndefined).

(** *** getUserPosts *)

Definition getUserPosts_try (userId : option string) : M value :=
  post <- call (databases_listDocuments
                  (databaseId cfg) (postCollectionId cfg)
                  [Query_equal "creator" (of_option userId);
                   Query_orderDesc "$createdAt"]) ;;
  when (falsy post) (throw Error) ;;
  ret post.

Definition getUserPosts (userId : option string) : M value :=
  if falsy (of_option userId) then ret VUndefined
  else
    try_catch (getUserPosts_try userId)
      (fun error => console_log error ;; ret VUndefined).

(** *** getRecentPosts *)

Definition getRecentPosts_try : M value :=
  posts <- call (databases_listDocuments
                   (databaseId cfg) (postCollectionId cfg)
                   [Query_orderDesc "$createdAt"; Query_limit 20%float]) ;;
  when (falsy posts) (throw Error) ;;
  ret posts.

Definition getRecentPosts : M value :=
  try_catch getRecentPosts_try
    (fun error => console_log error ;; ret VUndefined).

(** *** getUsers *)

Definition getUsers_try (queries : list Query) : M value :=
  users <- call (databases_listDocuments
                   (databaseId cfg) (userCollectionId cfg) queries) ;;
  when (falsy users) (throw Error) ;;
  ret users.

(** The statements before the [try]: the query array and its [push]. *)
Definition getUsers_queries (limit : option float) : list Query :=
  let queries := [Query_orderDesc "$createdAt"] in
  match limit with
  | Some n => if truthy_number n then (queries ++ [Query_limit n])%list else queries
  | None => queries
  end.

Definition getUsers (limit : option float) : M value :=
  let queries := getUsers_queries limit in
  try_catch (getUsers_try queries)
    (fun error => console_log error ;; ret VUndefined).

(** *** getUserById *)

Definition getUserById_try (userId : string) : M value :=
  user <- call (databases_getDocument
                  (databaseId cfg) (userCollectionId cfg) (VStr userId)) ;;
  when (falsy user) (throw Error) ;;
  ret user.

Definition getUserById (userId : string) : M value :=
  try_catch (getUserById_try userId)
    (fun error => console_log error ;; ret VUndefined).

(** *** updateUser *)

Definition updateUser_try (user : IUpdateUser.t) : M value :=
  let hasFileToUpdate := has_file (IUpdateUser.file user) in
  let image := {| Image.imageUrl := IUpdateUser.imageUrl user;
                  Image.imageId := VStr (IUpdateUser.imageId user) |} in
  image <- (if hasFileToUpdate then
              uploadedFile <- uploadFile (first_file (IUpdateUser.file user)) ;;
              when (falsy uploadedFile) (throw Error) ;;
              fileId <- lift (get_prop uploadedFile "$id") ;;
              fileUrl <- getFilePreview fileId ;;
              when (falsy fileUrl) (deleteFile fileId ;; throw Error) ;;
              ret {| Image.imageUrl := fileUrl; Image.imageId := fileId |}
            else ret image) ;;
  updatedUser <- call (databases_updateDocument
                         (databaseId cfg) (userCollectionId cfg)
                         (IUpdateUser.userId user)
                         (VObj [("name", VStr (IUpdateUser.name user));
                                ("bio", VStr (IUpdateUser.bio user));
                                ("imageUrl", Image.imageUrl image);
                                ("imageId", Image.imageId image)])) ;;
  when (falsy updatedUser)
    (when hasFileToUpdate (deleteFile (Image.imageId image) ;; ret tt) ;;
     throw Error) ;;
  when (truthy (VStr (IUpdateUser.imageId user)) && hasFileToUpdate)
    (deleteFile (VStr (IUpdateUser.imageId user)) ;; ret tt) ;;
  ret updatedUser.

Definition updateUser (user : IUpdateUser.t) : M value :=
  try_catch (updateUser_try user)
    (fun error => console_log error ;; ret VUndefined).

End Api.

(** ** The exported functions as one family *)

(** An invocation of an exported function of [api.ts] with its arguments. *)
Inductive ApiCall : Type :=
| CreateUserAccount (user : INewUser.t)
| SignInAccount (user : SignIn.t)
| SaveUserToDB (user : value)
| GetAccount
| GetCurrentUser
| SignOutAccount
| CreatePost (post : INewPost.t)
| UploadFile (file : value)
| GetFilePreview (fileId : value)
| DeleteFile (fileId : value)
| SearchPosts (searchTerm : string)
| GetInfinitePosts (pageParam : float)
| GetPostById (postId : option string)
| UpdatePost (post : IUpdatePost.t)
| DeletePost (postId imageId : option string)
| LikePost (postId : string) (likesArray : list string)
| SavePost (userId postId : string)
| DeleteSavedPost (savedRecordId : string)
| GetUserPosts (userId : option string)
| GetRecentPosts
| GetUsers (limit : option float)
| GetUserById (userId : string)
| UpdateUser (user : IUpdateUser.t).

Definition invoke (env : Env) (c : ApiCall) : M value :=
  match c with
  | CreateUserAccount user => createUserAccount env user
  | SignInAccount user => signInAccount env user
  | SaveUserToDB user => saveUserToDB env user
  | GetAccount => getAccount env
  | GetCurrentUser => getCurrentUser env
  | SignOutAccount => signOutAccount env
  | CreatePost post => createPost env post
  | UploadFile file => uploadFile env file
  | GetFilePreview fileId => getFilePreview env fileId
  | DeleteFile fileId => deleteFile env fileId
  | SearchPosts searchTerm => searchPosts env searchTerm
  | GetInfinitePosts pageParam => getInfinitePosts env pageParam
  | GetPostById postId => getPostById env postId
  | UpdatePost post => updatePost env post
  | DeletePost postId imageId => deletePost env postId imageId
  | LikePost postId likesArray => likePost env postId likesArray
  | SavePost userId postId => savePost env userId postId
  | DeleteSavedPost savedRecordId => deleteSavedPost env savedRecordId
  | GetUserPosts userId => getUserPosts env userId
  | GetRecentPosts => getRecentPosts env
  | GetUsers limit => getUsers env limit
  | GetUserById userId => getUserById env userId
  | UpdateUser user => updateUser env user
  end.

(** The [try] block of each function. *)
Definition try_block (env : Env) (c : ApiCall) : M value :=
  match c with
  | CreateUserAccount user => createUserAccount_try env user
  | SignInAccount user => signInAccount_try env user
  | SaveUserToDB user => saveUserToDB_try env user
  | GetAccount => getAccount_try env
  | GetCurrentUser => getCurrentUser_try env
  | SignOutAccount => signOutAccount_try env
  | CreatePost post => createPost_try env post
  | UploadFile file => uploadFile_try env file
  | GetFilePreview fileId => getFilePreview_try env fileId
  | DeleteFile fileId => deleteFile_try env fileId
  | SearchPosts searchTerm => searchPosts_try env searchTerm
  | GetInfinitePosts pageParam =>
      getInfinitePosts_try env (getInfinitePosts_queries env pageParam)
  | GetPostById postId => getPostById_try env postId
  | UpdatePost post => updatePost_try env post
  | DeletePost postId imageId => deletePost_try env postId imageId
  | LikePost postId likesArray => likePost_try env postId likesArray
  | SavePost userId postId => savePost_try env userId postId
  | DeleteSavedPost savedRecordId => deleteSavedPost_try env savedRecordId
  | GetUserPosts userId => getUserPosts_try env userId
  | GetRecentPosts => getRecentPosts_try env
  | GetUsers limit => getUsers_try env (getUsers_queries limit)
  | GetUserById userId => getUserById_try env userId
  | UpdateUser user => updateUser_try env user
  end.

(** The guard that three functions place before their [try] block:
    does the invocation reach the block? *)
Definition guard_passes (c : ApiCall) : bool :=
  match c with
  | GetPostById postId => truthy (of_option postId)
  | DeletePost postId imageId =>
      truthy (of_option postId) && truthy (of_option imageId)
  | GetUserPosts userId => truthy (of_option userId)
  | _ => true
  end.

(** What a stopped guard completes with: [getPostById] throws, the
    other two return. *)
Definition guard_completion (c : ApiCall) : Completion value :=
  match c with
  | GetPostById _ => Throw Error
  | _ => Normal VUndefined
  end.

(** What the [catch] block of each function returns for the caught [error]. *)
Definition catch_result (c : ApiCall) (error : value) : value :=
  match c with
  | CreateUserAccount _ => error
  | GetCurrentUser => VNull
  | _ => VUndefined
  end.

Definition is_nullish (v : value) : bool :=
  match v with
  | VUndefined | VNull => true
  | _ => false
  end.

Definition is_createUserAccount (c : ApiCall) : bool :=
  match c with
  | CreateUserAccount _ => true
  | _ => false
  end.

(** The world after [console.log(error)]. *)
Definition logged (error : value) (w : World) : World :=
  {| events := events w; console := error :: console w |}.

(** ** Observations on a run *)

(** The events of a run from [w] to [w'], most recent first. *)
Definition issued (w w' : World) : list Event :=
  firstn (length (events w') - length (events w)) (events w').

(** The number of remote calls among the events [l]. *)
Definition remote_calls (l : list Event) : nat :=
  length (filter (fun ev => is_remote (fst ev)) l).

(** The files whose deletion from storage was requested in [l]. *)
Definition deleted_files (l : list Event) : list value :=
  flat_map (fun ev => match fst ev with
                      | storage_deleteFile _ fileId => [fileId]
                      | _ => []
                      end) l.

(** ** Specifications *)

(** The specification of the tag array, in the words of the claim:
    [t] with every space character removed, split on commas. *)


(** The pieces put back together with the separator between them. *)
Fixpoint join (sep : ascii) (pieces : list string) : string :=
  match pieces with
  | [] => EmptyString
  | [piece] => piece
  | piece :: rest => piece ++ String sep (join sep rest)
  end.

Definition free_of (sep : ascii) (piece : string) : Prop :=
  ~ In sep (list_ascii_of_string piece).

(** [pieces] is [s] split on [sep]: at least one piece, no piece holds
    the separator, and the pieces joined by the separator give [s]. *)
Definition SplitOn (sep : ascii) (s : string) (pieces : list string) : Prop :=
  pieces <> [] /\ Forall (free_of sep) pieces /\ join sep pieces = s.


(** The SDK types the entries of a document list as documents: the
    first entry of a list it returns is never [null]. *)
Definition no_null_document (env : Env) : Prop :=
  forall history db coll queries response,
    sdk env history (databases_listDocuments db coll queries) = Normal response ->
    get_index (own_prop response "documents") 0 <> Normal VNull.

(** The least and the greatest number of remote calls of an invocation. *)
Definition remote_range (c : ApiCall) : nat * nat :=
  match c with
  | GetFilePreview _ => (0, 0)
  | CreateUserAccount _ | GetCurrentUser => (1, 2)
  | CreatePost _ => (1, 3)
  | UpdatePost post => if has_file (IUpdatePost.file post) then (1, 3) else (1, 1)
  | UpdateUser user => if has_file (IUpdateUser.file user) then (1, 3) else (1, 1)
  | DeletePost _ _ => if guard_passes c then (1, 2) else (0, 0)
  | GetPostById _ | GetUserPosts _ => if guard_passes c then (1, 1) else (0, 0)
  | _ => (1, 1)
  end.

(** The functions that return the response of their last SDK call. *)
Definition forwards (c : ApiCall) : bool :=
  match c with
  | GetCurrentUser | DeleteFile _ | DeletePost _ _ | DeleteSavedPost _ => false
  | UpdatePost post => negb (has_file (IUpdatePost.file post))
  | UpdateUser user =>
      negb (truthy (VStr (IUpdateUser.imageId user))
            && has_file (IUpdateUser.file user))
  | _ => true
  end.

(** What the [try] block of [c] returned, [v], against the events of
    the run, most recent first. *)
Definition success_value (c : ApiCall) (run : list Event) (v : value) : Prop :=
  match c with
  | DeleteFile _ => v = VObj [("status", VStr "ok")]
  | DeletePost _ _ | DeleteSavedPost _ => v = VObj [("status", VStr "Ok")]
  | GetCurrentUser =>
      forall call r rest,
        run = (call, Normal r) :: rest ->
        get_index (own_prop r "documents") 0 = Normal v
  | _ =>
      if forwards c then
        forall call r rest, run = (call, Normal r) :: rest -> v = r
      else
        exists bucket fileId res db coll id data rest,
          run = (storage_deleteFile bucket fileId, res)
                  :: (databases_updateDocument db coll id data, Normal v) :: rest
  end.

(** ** Concrete environments and inputs *)

Definition string_of_nat (n : nat) : string :=
  NilEmpty.string_of_uint (Nat.to_uint n).

Definition config0 : Config :=
  {| databaseId := "db"; storageId := "bucket"; userCollectionId := "users";
     postCollectionId := "posts"; savesCollectionId := "saves" |}.

Definition document0 : value :=
  VObj [("$id", VStr "65f1a"); ("name", VStr "Ada"); ("email", VStr "ada@example.org")].

Definition network_error : value :=
  VError "AppwriteException" "Network request failed".

(** A service that answers every call with a document. *)
Definition sdk_up : list Event -> Call -> Completion value :=
  fun _ _ => Normal document0.

(** A service that is unreachable: every remote call throws. *)
Definition sdk_down : list Event -> Call -> Completion value :=
  fun _ c =>
    if is_remote c then Throw network_error
    else Normal (VStr "https://cloud.appwrite.io/v1/local").

(** A service on which only the document writes fail. *)
Definition sdk_readonly : list Event -> Call -> Completion value :=
  fun _ c =>
    match c with
    | databases_createDocument _ _ _ _
    | databases_updateDocument _ _ _ _ => Throw network_error
    | _ => Normal document0
    end.

Definition env_of (s : list Event -> Call -> Completion value) : Env :=
  {| appwriteConfig := config0; sdk := s;
     ID_unique := fun history => "unique" ++ string_of_nat (length history);
     Number_toString := fun _ => "42" |}.

Definition user0 : INewUser.t :=
  {| INewUser.name := "Ada"; INewUser.email := "ada@example.org";
     INewUser.username := "ada"; INewUser.password := "secret12" |}.

Definition file0 : value := VObj [("name", VStr "cat.png")].

Definition post0 : INewPost.t :=
  {| INewPost.userId := "u1"; INewPost.caption := "hello";
     INewPost.file := [file0]; INewPost.location := Some "Pune";
     INewPost.tags := Some "art, cats ,fun" |}.

Definition update0 : IUpdatePost.t :=
  {| IUpdatePost.postId := "p1"; IUpdatePost.caption := "hello";
     IUpdatePost.imageId := "old"; IUpdatePost.imageUrl := VStr "https://cdn/old";
     IUpdatePost.file := [file0]; IUpdatePost.location := None;
     IUpdatePost.tags := None |}.

(** A service whose user collection has no document for the account. *)
Definition sdk_no_user : list Event -> Call -> Completion value :=
  fun _ c =>
    match c with
    | databases_listDocuments _ _ _ =>
        Normal (VObj [("total", VNum 0%float); ("documents", VArr [])])
    | _ => Normal document0
    end.

(** ** Footprints of the functions *)

(** The functions that check the response of their last call with
    [if (!x) throw Error], or return a status object of their own. *)
Definition checked (c : ApiCall) : bool :=
  match c with
  | CreateUserAccount _ | SignInAccount _ | SaveUserToDB _ | GetAccount
  | GetCurrentUser | SignOutAccount | UploadFile _ => false
  | _ => true
  end.

(** The checked functions none of whose steps can log on its way to
    a successful return. *)
Definition quiet_on_success (c : ApiCall) : bool :=
  match c with
  | UpdatePost _ | UpdateUser _ | DeletePost _ _ => false
  | _ => checked c
  end.

(** The functions that only read. *)
Definition read_only (c : ApiCall) : bool :=
  match c with
  | GetAccount | GetCurrentUser | GetFilePreview _ | SearchPosts _
  | GetInfinitePosts _ | GetPostById _ | GetUserPosts _ | GetRecentPosts
  | GetUsers _ | GetUserById _ => true
  | _ => false
  end.

(** The SDK methods that change nothing on the service. *)
Definition is_read (c : Call) : bool :=
  match c with
  | account_get | databases_listDocuments _ _ _ | databases_getDocument _ _ _
  | storage_getFilePreview _ _ _ _ _ _ => true
  | _ => false
  end.

(** The functions in which a call of [deleteFile] occurs. *)
Definition deletes_files (c : ApiCall) : bool :=
  match c with
  | DeleteFile _ | CreatePost _ | UpdatePost _ | DeletePost _ _ | UpdateUser _ => true
  | _ => false
  end.

(** The collections that a function names. *)
Definition collections_of (cfg : Config) (c : ApiCall) : list string :=
  match c with
  | CreateUserAccount _ | SaveUserToDB _ | GetCurrentUser | GetUsers _
  | GetUserById _ | UpdateUser _ => [userCollectionId cfg]
  | CreatePost _ | SearchPosts _ | GetInfinitePosts _ | GetPostById _
  | UpdatePost _ | DeletePost _ _ | LikePost _ _ | GetUserPosts _
  | GetRecentPosts => [postCollectionId cfg]
  | SavePost _ _ | DeleteSavedPost _ => [savesCollectionId cfg]
  | _ => []
  end.

(** A database call goes to the configured database and to one of the
    collections [allowed]; a storage call goes to the configured bucket. *)
Definition well_targeted (cfg : Config) (allowed : list string) (c : Call) : bool :=
  match c with
  | databases_createDocument db coll _ _
  | databases_listDocuments db coll _
  | databases_getDocument db coll _
  | databases_updateDocument db coll _ _
  | databases_deleteDocument db coll _ =>
      (db =? databaseId cfg) && existsb (String.eqb coll) allowed
  | storage_createFile bucket _ _
  | storage_getFilePreview bucket _ _ _ _ _
  | storage_deleteFile bucket _ => bucket =? storageId cfg
  | _ => true
  end.

(** The number of lines written to the console from [w] to [w']. *)
Definition logged_lines (w w' : World) : nat :=
  length (console w') - length (console w).
Arguments logged_lines : simpl never.

(** The number of commas of a string. *)
Fixpoint count_commas (s : string) : nat :=
  match s with
  | EmptyString => 0
  | String c rest =>
      if Ascii.eqb c ","%char then S (count_commas rest) else count_commas rest
  end.

(** ** Further environments and inputs *)

(** A service whose preview endpoint fails. *)
Definition sdk_preview_down : list Event -> Call -> Completion value :=
  fun _ c =>
    match c with
    | storage_getFilePreview _ _ _ _ _ _ => Throw network_error
    | _ => Normal document0
    end.

(** A service whose document updates answer [null]. *)
Definition sdk_update_null : list Event -> Call -> Completion value :=
  fun _ c =>
    match c with
    | databases_updateDocument _ _ _ _ => Normal VNull
    | _ => Normal document0
    end.

Definition update_without_file : IUpdatePost.t :=
  {| IUpdatePost.postId := "p1"; IUpdatePost.caption := "edited";
     IUpdatePost.imageId := "old"; IUpdatePost.imageUrl := VStr "https://cdn/old";
     IUpdatePost.file := []; IUpdatePost.location := Some "Pune";
     IUpdatePost.tags := Some "a,b" |}.

Definition profile0 : IUpdateUser.t :=
  {| IUpdateUser.userId := "u1"; IUpdateUser.name := "Ada";
     IUpdateUser.bio := "engineer"; IUpdateUser.imageId := "";
     IUpdateUser.imageUrl := VStr "https://cdn/initials";
     IUpdateUser.file := [file0] |}.

(** ** Basic facts *)

Lemma falsy_truthy (v : value) : falsy v = negb (truthy v).
Proof. reflexivity. Qed.

Lemma get_prop_truthy (v : value) (p : string) :
  truthy v = true -> get_prop v p = Normal (own_prop v p).
Proof. destruct v; simpl; intros H; try discriminate H; reflexivity. Qed.

Lemma truthy_of_option (o : option string) :
  truthy (of_option o) = false <-> o = None \/ o = Some "".
Proof.
  destruct o as [s|]; simpl.
  - destruct s as [|c s]; simpl; split; intros H; auto.
    + discriminate H.
    + destruct H as [H|H]; discriminate H.
  - split; auto.
Qed.

Lemma truthy_number_false (n : float) :
  truthy_number n = false <->
  PrimFloat.is_zero n = true \/ PrimFloat.is_nan n = true.
Proof.
  unfold truthy_number.
  rewrite negb_false_iff, orb_true_iff. reflexivity.
Qed.

Lemma issued_app (new old : list Event) (k k' : list value) :
  issued {| events := old; console := k |}
         {| events := new ++ old; console := k' |} = new.
Proof.
  unfold issued; simpl.
  rewrite length_app, Nat.add_sub.
  rewrite firstn_app, Nat.sub_diag, firstn_all. simpl.
  apply app_nil_r.
Qed.

Lemma issued_refl (w : World) : issued w w = [].
Proof. unfold issued. rewrite Nat.sub_diag. reflexivity. Qed.

(** ** Symbolic execution of the wrappers *)

(** Callers are unfolded before the functions they call. *)
Ltac unfold_api :=
  unfold invoke, try_block in *;
  unfold createUserAccount, createUserAccount_try,
    getCurrentUser, getCurrentUser_try, createPost, createPost_try,
    updatePost, updatePost_try, deletePost, deletePost_try,
    updateUser, updateUser_try in *;
  unfold signInAccount, signInAccount_try,
    saveUserToDB, saveUserToDB_try, getAccount, getAccount_try,
    signOutAccount, signOutAccount_try, uploadFile, uploadFile_try,
    getFilePreview, getFilePreview_try, deleteFile, deleteFile_try,
    searchPosts, searchPosts_try, getInfinitePosts, getInfinitePosts_try,
    getPostById, getPostById_try, likePost, likePost_try,
    savePost, savePost_try, deleteSavedPost, deleteSavedPost_try,
    getUserPosts, getUserPosts_try, getRecentPosts, getRecentPosts_try,
    getUsers, getUsers_try, getUserById, getUserById_try in *.

Ltac unfold_monad :=
  unfold bind, ret, throw, try_catch, lift, when, console_log, call, unique,
    logged in *.

Ltac js_cbn :=
  cbn -[truthy get_prop own_prop tags_value String.eqb issued has_file first_file].

(** One step: decide the next SDK completion or the next truthiness test. *)
Ltac exec_step :=
  match goal with
  | H : truthy ?v = true |- context [get_prop ?v ?p] =>
      rewrite (get_prop_truthy v p H)
  | |- context [match sdk ?e ?h ?c with _ => _ end] =>
      let r := fresh "r" in
      let E := fresh "Hsdk" in
      destruct (sdk e h c) as [r|r] eqn:E
  | |- context [falsy ?v] =>
      let E := fresh "Htruthy" in
      rewrite (falsy_truthy v); destruct (truthy v) eqn:E;
      try (simpl in E; discriminate E)
  | |- context [if truthy ?v && _ then _ else _] =>
      let E := fresh "Htruthy" in
      destruct (truthy v) eqn:E
  | |- context [match get_index ?a ?i with _ => _ end] =>
      let r := fresh "r" in
      let E := fresh "Hindex" in
      destruct (get_index a i) as [r|r] eqn:E
  | |- context [if has_file ?f then _ else _] =>
      let E := fresh "Hfile" in
      destruct (has_file f) eqn:E
  end; js_cbn.

Ltac exec :=
  unfold_api; unfold_monad; js_cbn; repeat exec_step.

(** The events in front of [old] in a list that extends [old]. *)
Ltac prefix_of l old :=
  lazymatch l with
  | old => constr:(@nil Event)
  | ?e :: ?l' => let p := prefix_of l' old in constr:(e :: p)
  end.

(** Compute [issued w w'] once the run has been executed. *)
Ltac issued_events :=
  repeat match goal with
  | |- context [issued {| events := ?old; console := ?k |}
                       {| events := ?l; console := ?k' |}] =>
      let p := prefix_of l old in
      rewrite (issued_app p old k k'
               : issued {| events := old; console := k |}
                        {| events := l; console := k' |} = p)
  end.

(** ** C1: the failure policy *)

(** How every exported function runs: its guard, then its [try]
    block, then, if the block threw, its [catch] block. *)
Lemma invoke_run (env : Env) (c : ApiCall) (w : World) :
  invoke env c w =
    (if guard_passes c then
       match try_block env c w with
       | (Normal v, w') => (Normal v, w')
       | (Throw error, w') => (Normal (catch_result c error), logged error w')
       end
     else (guard_completion c, w)).
Proof.
  destruct c; simpl guard_passes; cbv iota; try reflexivity.
  - (* getPostById: the guard throws *)
    simpl invoke. unfold getPostById, bind at 1, when.
    rewrite falsy_truthy.
    destruct (truthy (of_option postId)); reflexivity.
  - (* deletePost: the guard returns *)
    simpl invoke. unfold deletePost. rewrite !falsy_truthy.
    destruct (truthy (of_option postId)), (truthy (of_option imageId));
      reflexivity.
  - (* getUserPosts: the guard returns *)
    simpl invoke. unfold getUserPosts. rewrite falsy_truthy.
    destruct (truthy (of_option userId)); reflexivity.
Qed.

(** C1 (amended).  Every exported function runs its guard, if it has
    one, and then its [try] block; when the block completes normally
    the function returns the block's value, and when a step of the block
    throws, the function logs the caught error and returns
    [catch_result]: the caught error itself for [createUserAccount],
    [null] for [getCurrentUser] and [undefined] for every other
    function.  An exception reaches the caller only from
    [getPostById] called with a missing or empty [postId], whose guard
    throws before the [try] block. *)
Theorem failure_policy (env : Env) (c : ApiCall) (w : World) :
  invoke env c w =
    (if guard_passes c then
       match try_block env c w with
       | (Normal v, w') => (Normal v, w')
       | (Throw error, w') => (Normal (catch_result c error), logged error w')
       end
     else (guard_completion c, w))
  /\ (forall error,
        if is_createUserAccount c then catch_result c error = error
        else is_nullish (catch_result c error) = true)
  /\ (forall e w',
        invoke env c w = (Throw e, w') ->
        exists postId,
          c = GetPostById postId /\ truthy (of_option postId) = false
          /\ e = Error /\ w' = w).
Proof.
  pose proof (invoke_run env c w) as Hrun.
  split; [exact Hrun|]. split.
  - intros error. destruct c; reflexivity.
  - intros e w' Hthrow. rewrite Hrun in Hthrow.
    destruct (guard_passes c) eqn:Hguard.
    + destruct (try_block env c w) as [[v|error] w'']; discriminate Hthrow.
    + destruct c; simpl in Hguard; try discriminate Hguard;
        simpl in Hthrow; try discriminate Hthrow.
      inversion Hthrow; subst. exists postId. auto.
Qed.

(** C1 (as stated) fails twice.  With the service unreachable,
    [createUserAccount] fails in its [try] block and returns the caught
    error object, which is neither [undefined] nor [null]; and
    [getPostById] called without a [postId] throws to its caller, with
    nothing logged. *)
Lemma failure_policy_counterexample :
  fst (try_block (env_of sdk_down) (CreateUserAccount user0) initial)
    = Throw network_error
  /\ fst (invoke (env_of sdk_down) (CreateUserAccount user0) initial)
    = Normal network_error
  /\ is_nullish network_error = false
  /\ invoke (env_of sdk_up) (GetPostById None) initial = (Throw Error, initial).
Proof. repeat split; vm_compute; reflexivity. Qed.

(** A failure inside a function that is called, such as [deleteFile],
    is caught and logged by that function: for the caller the step
    completes, and the caller goes on.  With a storage that refuses
    deletions, [deletePost] logs the error once and returns
    [{status: "Ok"}]. *)
Lemma deletePost_file_delete_fails :
  invoke (env_of (fun _ c => match c with
                             | storage_deleteFile _ _ => Throw network_error
                             | _ => Normal document0
                             end))
    (DeletePost (Some "p1") (Some "i1")) initial
  = (Normal (VObj [("status", VStr "Ok")]),
     {| events := [(storage_deleteFile "bucket" (VStr "i1"), Throw network_error);
                   (databases_deleteDocument "db" "posts" (VStr "p1"), Normal document0)];
        console := [network_error] |}).
Proof. vm_compute. reflexivity. Qed.

(** ** C8: the guard of [deletePost] *)

(** C8.  When [postId] or [imageId] is missing or empty, [deletePost]
    returns [undefined] and leaves the world as it was: no SDK call is
    issued (neither the document delete nor the file delete) and
    nothing is logged. *)
Theorem deletePost_guard (env : Env) (postId imageId : option string) (w : World) :
  postId = None \/ postId = Some "" \/ imageId = None \/ imageId = Some "" ->
  deletePost env postId imageId w = (Normal VUndefined, w)
  /\ issued w (snd (deletePost env postId imageId w)) = [].
Proof.
  intros H.
  assert (Hguard : falsy (of_option postId) || falsy (of_option imageId) = true).
  { rewrite orb_true_iff, !falsy_truthy, !negb_true_iff, !truthy_of_option.
    tauto. }
  unfold deletePost. rewrite Hguard. split; [reflexivity|].
  apply issued_refl.
Qed.

Lemma deletePost_guard_witness :
  deletePost (env_of sdk_up) (Some "p1") (Some "") initial = (Normal VUndefined, initial)
  /\ issued initial (snd (deletePost (env_of sdk_up) (Some "p1") (Some "") initial)) = [].
Proof.
  apply (deletePost_guard (env_of sdk_up) (Some "p1") (Some "") initial).
  right; right; right; reflexivity.
Defined.

(** With both identifiers present the guard lets the call through: the
    guard is what stops the calls, not the function as a whole. *)
Lemma deletePost_passes_guard :
  map fst (issued initial (snd (deletePost (env_of sdk_up) (Some "p1") (Some "i1") initial)))
  = [storage_deleteFile "bucket" (VStr "i1");
     databases_deleteDocument "db" "posts" (VStr "p1")].
Proof. vm_compute. reflexivity. Qed.

(** ** C6: the queries of [getInfinitePosts] *)

(** C6.  [getInfinitePosts] issues exactly one SDK call, the document
    list on the post collection, and its query list is
    [orderDesc("$updatedAt")], [limit(9)], followed by
    [cursorAfter(pageParam.toString())] exactly when [pageParam] is
    truthy (neither a zero nor [NaN]). *)
Theorem getInfinitePosts_queries_spec (env : Env) (pageParam : float) (w : World) :
  let queries :=
    ([Query_orderDesc "$updatedAt"; Query_limit 9%float]
     ++ (if truthy_number pageParam
         then [Query_cursorAfter (Number_toString env pageParam)]
         else []))%list in
  map fst (issued w (snd (getInfinitePosts env pageParam w)))
  = [databases_listDocuments (databaseId (appwriteConfig env))
       (postCollectionId (appwriteConfig env)) queries]
  /\ In (Query_orderDesc "$updatedAt") queries
  /\ In (Query_limit 9%float) queries
  /\ ((exists cursor, In (Query_cursorAfter cursor) queries)
      <-> truthy_number pageParam = true)
  /\ (forall cursor, In (Query_cursorAfter cursor) queries ->
                     cursor = Number_toString env pageParam)
  /\ (truthy_number pageParam = false <->
      PrimFloat.is_zero pageParam = true \/ PrimFloat.is_nan pageParam = true).
Proof.
  intros queries. split.
  - destruct w as [old k].
    assert (Hq : getInfinitePosts_queries env pageParam = queries).
    { unfold getInfinitePosts_queries, queries.
      destruct (truthy_number pageParam); reflexivity. }
    unfold getInfinitePosts. rewrite Hq. clearbody queries.
    exec; issued_events; reflexivity.
  - subst queries. simpl. repeat split; auto.
    + intros [cursor [H|[H|H]]]; try discriminate H.
      destruct (truthy_number pageParam); [reflexivity|destruct H].
    + intros H. rewrite H. exists (Number_toString env pageParam).
      simpl; auto.
    + intros cursor [H|[H|H]]; try discriminate H.
      destruct (truthy_number pageParam); simpl in H; [|destruct H].
      destruct H as [H|[]]. inversion H. reflexivity.
    + apply truthy_number_false.
    + apply truthy_number_false.
Qed.

(** The falsy numbers are the two zeros and [NaN]. *)
Lemma getInfinitePosts_first_page :
  getInfinitePosts_queries (env_of sdk_up) 0%float
    = [Query_orderDesc "$updatedAt"; Query_limit 9%float]
  /\ getInfinitePosts_queries (env_of sdk_up) (-0)%float
    = [Query_orderDesc "$updatedAt"; Query_limit 9%float]
  /\ getInfinitePosts_queries (env_of sdk_up) PrimFloat.nan
    = [Query_orderDesc "$updatedAt"; Query_limit 9%float]
  /\ getInfinitePosts_queries (env_of sdk_up) 42%float
    = [Query_orderDesc "$updatedAt"; Query_limit 9%float; Query_cursorAfter "42"].
Proof. repeat split; vm_compute; reflexivity. Qed.

(** ** C10: the queries of [getUsers] *)

(** C10.  [getUsers] issues one document list on the user collection
    whose queries are [orderDesc("$createdAt")], followed by
    [limit(limit)] exactly when [limit] is truthy (present, and neither
    a zero nor [NaN]).  So [getUsers(0)] behaves as [getUsers()]: it
    requests the list with no limit. *)
Theorem getUsers_limit_spec (env : Env) (limit : option float) (w : World) :
  let queries :=
    ([Query_orderDesc "$createdAt"]
     ++ match limit with
        | Some n => if truthy_number n then [Query_limit n] else []
        | None => []
        end)%list in
  map fst (issued w (snd (getUsers env limit w)))
  = [databases_listDocuments (databaseId (appwriteConfig env))
       (userCollectionId (appwriteConfig env)) queries]
  /\ ((exists n, In (Query_limit n) queries) <-> truthy_opt_number limit = true)
  /\ getUsers env (Some 0%float) w = getUsers env None w
  /\ map fst (issued w (snd (getUsers env (Some 0%float) w)))
     = [databases_listDocuments (databaseId (appwriteConfig env))
          (userCollectionId (appwriteConfig env)) [Query_orderDesc "$createdAt"]]
  /\ (truthy_opt_number limit = true <->
      exists n, limit = Some n
                /\ PrimFloat.is_zero n = false /\ PrimFloat.is_nan n = false).
Proof.
  intros queries.
  assert (Hcall : forall qs,
    map fst (issued w (snd (try_catch (getUsers_try env qs)
                              (fun error => console_log error ;; ret VUndefined) w)))
    = [databases_listDocuments (databaseId (appwriteConfig env))
         (userCollectionId (appwriteConfig env)) qs]).
  { intros qs. destruct w as [old k]. exec; issued_events; reflexivity. }
  repeat split.
  - assert (Hq : getUsers_queries limit = queries).
    { unfold getUsers_queries, queries.
      destruct limit as [n|]; [destruct (truthy_number n)|]; reflexivity. }
    unfold getUsers. rewrite Hq. apply Hcall.
  - subst queries. intros [n H].
    destruct limit as [m|]; simpl in *.
    + destruct (truthy_number m); [reflexivity|].
      destruct H as [H|[]]; discriminate H.
    + destruct H as [H|[]]; discriminate H.
  - subst queries. intros H.
    destruct limit as [m|]; simpl in *; [|discriminate H].
    rewrite H. exists m. simpl; auto.
  - apply (Hcall [Query_orderDesc "$createdAt"]).
  - intros H. destruct limit as [n|]; simpl in H; [|discriminate H].
    exists n. unfold truthy_number in H.
    rewrite negb_true_iff, orb_false_iff in H. tauto.
  - intros (n & -> & Hzero & Hnan). simpl. unfold truthy_number.
    rewrite Hzero, Hnan. reflexivity.
Qed.

(** ** C9: [getCurrentUser] without a user document *)

(** The [try] block of [getCurrentUser] returns an entry of the
    document list that the SDK answered with. *)
Lemma getCurrentUser_try_returns (env : Env) (w w' : World) (v : value) :
  getCurrentUser_try env w = (Normal v, w') ->
  exists history db coll queries response,
    sdk env history (databases_listDocuments db coll queries) = Normal response
    /\ get_index (own_prop response "documents") 0 = Normal v.
Proof.
  destruct w as [old k]. revert w' v.
  exec; intros w' v H; try discriminate H.
  match goal with
  | E : sdk env ?h (databases_listDocuments ?db ?coll ?q) = Normal ?r |- _ =>
      exists h, db, coll, q, r; split; [exact E|]
  end.
  inversion H; subst; reflexivity.
Qed.

(** C9.  When the account lookup succeeds and the user-collection
    query answers with an empty [documents] list, [getCurrentUser]
    returns [undefined], the first element of an empty list, and logs
    nothing.  [null] is returned only by the [catch] block: whenever
    the result is [null], the [try] block threw and the error was
    logged. *)
Theorem getCurrentUser_undefined_not_null (env : Env) (w : World) :
  no_null_document env ->
  (forall account users,
     sdk env (events w) account_get = Normal account ->
     truthy account = true ->
     sdk env ((account_get, Normal account) :: events w)
       (databases_listDocuments (databaseId (appwriteConfig env))
          (userCollectionId (appwriteConfig env))
          [Query_equal "accountId" (own_prop account "$id")]) = Normal users ->
     truthy users = true ->
     own_prop users "documents" = VArr [] ->
     fst (getCurrentUser env w) = Normal VUndefined
     /\ console (snd (getCurrentUser env w)) = console w)
  /\ (forall w',
        getCurrentUser env w = (Normal VNull, w') ->
        exists error w'',
          getCurrentUser_try env w = (Throw error, w'') /\ w' = logged error w'').
Proof.
  intros Htyped. split.
  - intros account users Hacct Htacct Husers Htusers Hdocs.
    destruct w as [old k]. simpl in Hacct, Husers.
    unfold_api; unfold_monad.
    cbn -[truthy get_prop own_prop String.eqb].
    rewrite Hacct. cbn -[truthy get_prop own_prop String.eqb].
    rewrite falsy_truthy, Htacct. cbn -[truthy get_prop own_prop String.eqb].
    rewrite (get_prop_truthy _ _ Htacct). cbn -[truthy get_prop own_prop String.eqb].
    rewrite Husers. cbn -[truthy get_prop own_prop String.eqb].
    rewrite falsy_truthy, Htusers. cbn -[truthy get_prop own_prop String.eqb].
    rewrite (get_prop_truthy _ _ Htusers). cbn -[truthy get_prop own_prop String.eqb].
    rewrite Hdocs. simpl. split; reflexivity.
  - intros w' H.
    assert (Hrun : getCurrentUser env w =
                   match getCurrentUser_try env w with
                   | (Normal v, w1) => (Normal v, w1)
                   | (Throw error, w1) => (Normal VNull, logged error w1)
                   end) by reflexivity.
    rewrite Hrun in H.
    destruct (getCurrentUser_try env w) as [[v|error] w1] eqn:Htry.
    + inversion H; subst.
      destruct (getCurrentUser_try_returns env w w' VNull Htry)
        as (h & db & coll & q & r & Hsdk & Hidx).
      exfalso. exact (Htyped h db coll q r Hsdk Hidx).
    + inversion H; subst. exists error, w1. split; reflexivity.
Qed.

Lemma sdk_no_user_typed : no_null_document (env_of sdk_no_user).
Proof.
  intros history db coll queries response H.
  simpl in H. inversion H; subst. simpl. discriminate.
Qed.

Lemma getCurrentUser_undefined_not_null_witness :
  fst (getCurrentUser (env_of sdk_no_user) initial) = Normal VUndefined
  /\ console (snd (getCurrentUser (env_of sdk_no_user) initial)) = [].
Proof.
  apply (proj1 (getCurrentUser_undefined_not_null
                  (env_of sdk_no_user) initial sdk_no_user_typed)
           document0
           (VObj [("total", VNum 0%float); ("documents", VArr [])]));
    reflexivity.
Defined.

(** With the service unreachable the [catch] block runs and the result
    is [null]. *)
Lemma getCurrentUser_unreachable :
  getCurrentUser (env_of sdk_down) initial
  = (Normal VNull,
     {| events := [(account_get, Throw network_error)];
        console := [Error; network_error] |}).
Proof. vm_compute. reflexivity. Qed.

(** ** C5: tag parsing *)


Lemma split_nonempty (sep : ascii) (s : string) : split sep s <> [].
Proof.
  destruct s as [|c s]; simpl; [discriminate|].
  destruct (Ascii.eqb c sep); [discriminate|].
  destruct (split sep s); discriminate.
Qed.

Lemma join_cons (sep : ascii) (piece : string) (rest : list string) :
  rest <> [] -> join sep (piece :: rest) = piece ++ String sep (join sep rest).
Proof. destruct rest; [congruence|reflexivity]. Qed.

Lemma split_SplitOn (sep : ascii) (s : string) : SplitOn sep s (split sep s).
Proof.
  unfold SplitOn. split; [apply split_nonempty|].
  induction s as [|c s [IHfree IHjoin]]; simpl.
  - split; [|reflexivity]. constructor; [|constructor]. intros [].
  - destruct (Ascii.eqb_spec c sep) as [->|Hneq].
    + split.
      * constructor; [intros []|exact IHfree].
      * rewrite join_cons by apply split_nonempty. simpl. rewrite IHjoin.
        reflexivity.
    + pose proof (split_nonempty sep s) as Hne.
      destruct (split sep s) as [|piece pieces]; [congruence|].
      apply Forall_cons_iff in IHfree as [Hpiece Hpieces]. split.
      * constructor; [|exact Hpieces].
        intros [H|H]; [congruence|exact (Hpiece H)].
      * rewrite <- IHjoin. destruct pieces; reflexivity.
Qed.



Ltac in_events :=
  repeat match goal with
  | H : In _ _ |- _ => simpl in H
  | H : _ \/ _ |- _ => destruct H
  | H : False |- _ => destruct H
  | H : (_, _) = (_, _) |- _ => inversion H; clear H; subst
  end.






(** On a reachable service both functions do write the document, with
    the tags of ["art, cats ,fun"] and of an absent tag string. *)
Lemma tags_written :
  map fst (issued initial (snd (createPost (env_of sdk_up) post0 initial)))
  = [databases_createDocument "db" "posts" (VStr "unique2")
       (VObj [("creator", VStr "u1"); ("caption", VStr "hello");
              ("imageUrl", document0); ("imageId", VStr "65f1a");
              ("location", VStr "Pune");
              ("tags", VArr [VStr "art"; VStr "cats"; VStr "fun"])]);
     storage_getFilePreview "bucket" (VStr "65f1a") 2000%float 2000%float "top" 100%float;
     storage_createFile "bucket" (VStr "unique0") file0]
  /\ parse_tags (Some "") = [""]
  /\ parse_tags (Some "a,,b ") = ["a"; ""; "b"]
  /\ parse_tags None = [].
Proof. repeat split; vm_compute; reflexivity. Qed.

(** ** C7: the number of remote calls *)

Ltac count_remote :=
  issued_events; unfold remote_calls; simpl; lia.

(** C7 (amended).  An invocation of an exported function issues
    between [fst (remote_range c)] and [snd (remote_range c)] remote
    calls, and never more than three: exactly one for the plain
    wrappers, none for [getFilePreview] and for a function stopped by
    its guard, one or two for [createUserAccount], [getCurrentUser] and
    [deletePost], one to three for [createPost] and, when a new file is
    given, for [updatePost] and [updateUser]. *)
Theorem remote_calls_bounds (env : Env) (c : ApiCall) (w : World) :
  let n := remote_calls (issued w (snd (invoke env c w))) in
  fst (remote_range c) <= n /\ n <= snd (remote_range c)
  /\ snd (remote_range c) <= 3.
Proof.
  destruct w as [old k].
  destruct c; simpl remote_range; cbv zeta.
  all: try solve [exec; count_remote].
Qed.

(** C7 (as stated) fails: on a reachable service [createPost] issues
    two remote calls (the upload and the document write) and
    [updatePost] with a new file three (the upload, the update and the
    deletion of the old file); [deletePost] without identifiers
    issues none. *)
Lemma remote_calls_counterexample :
  remote_calls (issued initial (snd (invoke (env_of sdk_up) (CreatePost post0) initial))) = 2
  /\ remote_calls (issued initial (snd (invoke (env_of sdk_up) (UpdatePost update0) initial))) = 3
  /\ remote_calls (issued initial (snd (invoke (env_of sdk_up) (DeletePost None None) initial))) = 0.
Proof. repeat split; vm_compute; reflexivity. Qed.

(** The bounds of [remote_range] are reached. *)
Lemma remote_range_reached :
  remote_calls (issued initial (snd (invoke (env_of sdk_down) (CreatePost post0) initial))) = 1
  /\ remote_calls (issued initial
       (snd (invoke (env_of (fun _ c => match c with
                                        | databases_createDocument _ _ _ _ => Normal VNull
                                        | _ => Normal document0
                                        end))
               (CreatePost post0) initial))) = 3
  /\ remote_calls (issued initial (snd (invoke (env_of sdk_up) (CreateUserAccount user0) initial))) = 2
  /\ remote_calls (issued initial (snd (invoke (env_of sdk_up) (GetFilePreview (VStr "f")) initial))) = 0.
Proof. repeat split; vm_compute; reflexivity. Qed.

(** ** C4: the value returned on success *)

Ltac last_event :=
  match goal with
  | |- forall call r rest, _ = _ -> _ =>
      let H := fresh "Hlast" in
      intros ? ? ? H; inversion H; subst; clear H; try reflexivity; try assumption
  | |- exists _, _ => repeat eexists
  | |- _ = _ => reflexivity
  end.

(** C4 (amended).  On the success path, where the guard passes and
    the [try] block returns [v], the function returns [v] and has
    issued at least one SDK call.  For every function but six, [v] is
    the response of the last SDK call, unchanged.  The six are:
    [deleteFile], which returns [{status: "ok"}]; [deletePost] and
    [deleteSavedPost], which return [{status: "Ok"}]; [getCurrentUser],
    which returns the first entry of the [documents] of the response;
    and [updatePost] and [updateUser] when they replace a file, which
    return the response of the document update, issued before the
    deletion of the old file. *)
Theorem success_forwards_response
    (env : Env) (c : ApiCall) (w w' : World) (v : value) :
  guard_passes c = true ->
  try_block env c w = (Normal v, w') ->
  invoke env c w = (Normal v, w')
  /\ issued w w' <> []
  /\ success_value c (issued w w') v.
Proof.
  intros Hguard Htry. split.
  { rewrite invoke_run, Hguard, Htry. reflexivity. }
  clear Hguard. revert Htry. destruct w as [old k].
  destruct c; unfold success_value, forwards.
  all: try (generalize (getInfinitePosts_queries env pageParam) as queries; intros queries).
  all: try (generalize (getUsers_queries limit) as queries; intros queries).
  all: exec; intros Htry; inversion Htry; subst; clear Htry; issued_events;
    (split; [discriminate|]); rewrite ?Hfile; simpl negb; cbv iota;
    try last_event.
Qed.

Lemma success_forwards_response_witness :
  invoke (env_of sdk_up) (CreatePost post0) initial
  = (Normal document0, snd (createPost (env_of sdk_up) post0 initial))
  /\ issued initial (snd (createPost (env_of sdk_up) post0 initial)) <> []
  /\ success_value (CreatePost post0)
       (issued initial (snd (createPost (env_of sdk_up) post0 initial))) document0.
Proof.
  apply (success_forwards_response (env_of sdk_up) (CreatePost post0) initial
           (snd (createPost (env_of sdk_up) post0 initial)) document0).
  - reflexivity.
  - vm_compute. reflexivity.
Defined.

(** C4 (as stated) fails: on a reachable service [deleteFile] and
    [deletePost] succeed and return status objects of their own, not
    the response of the SDK, and [getCurrentUser] returns an entry of
    the response, not the response. *)
Lemma success_forwards_counterexample :
  invoke (env_of sdk_up) (DeleteFile (VStr "f1")) initial
  = (Normal (VObj [("status", VStr "ok")]),
     {| events := [(storage_deleteFile "bucket" (VStr "f1"), Normal document0)];
        console := [] |})
  /\ VObj [("status", VStr "ok")] <> document0
  /\ invoke (env_of sdk_up) (DeletePost (Some "p1") (Some "i1")) initial
     = (Normal (VObj [("status", VStr "Ok")]),
        {| events := [(storage_deleteFile "bucket" (VStr "i1"), Normal document0);
                      (databases_deleteDocument "db" "posts" (VStr "p1"), Normal document0)];
           console := [] |})
  /\ fst (invoke (env_of sdk_no_user) GetCurrentUser initial) = Normal VUndefined.
Proof.
  repeat split; try (vm_compute; reflexivity). discriminate.
Qed.

(** ** C2: the cleanup of [createPost] *)

(** X1.  The cleanup that [createPost] performs.  When the upload succeeded and
    [createPost] then failed without the document write having thrown
    (the preview URL was falsy or threw, or the write answered with a
    falsy value), exactly one file deletion was requested, that of the
    uploaded file. *)
Lemma createPost_cleanup (env : Env) (post : INewPost.t) (w : World) :
  forall bucket id file uploaded,
    In (storage_createFile bucket id file, Normal uploaded)
       (issued w (snd (createPost env post w))) ->
    truthy uploaded = true ->
    (forall v, fst (createPost_try env post w) <> Normal v) ->
    (forall db coll doc data e,
       ~ In (databases_createDocument db coll doc data, Throw e)
            (issued w (snd (createPost env post w)))) ->
    deleted_files (issued w (snd (createPost env post w)))
    = [own_prop uploaded "$id"].
Proof.
  destruct w as [old k].
  exec; issued_events; intros bucket id file uploaded Hin Hup Hfail Hwrite;
    in_events;
    first [ congruence
          | reflexivity
          | exfalso; eapply Hfail; reflexivity
          | exfalso; eapply Hwrite; left; reflexivity ].
Qed.

(** X2.  When the document write of [createPost] throws, no file
    deletion is requested and the result is [undefined], whatever the
    service and the post. *)
Lemma createPost_no_cleanup_on_throw (env : Env) (post : INewPost.t) (w : World) :
  forall db coll doc data e,
    In (databases_createDocument db coll doc data, Throw e)
       (issued w (snd (createPost env post w))) ->
    deleted_files (issued w (snd (createPost env post w))) = []
    /\ fst (createPost env post w) = Normal VUndefined.
Proof.
  destruct w as [old k].
  exec; issued_events; intros db coll doc data e Hin; in_events;
    split; reflexivity.
Qed.

(** C2 (the defect).  On a service whose document writes fail, as the
    SDK reports failure, by throwing, [createPost] uploads the file,
    fails on [databases.createDocument], logs the error and returns
    [undefined] without requesting any file deletion: the uploaded
    file stays in storage with no post that refers to it. *)
Theorem createPost_orphans_upload :
  createPost (env_of sdk_readonly) post0 initial
  = (Normal VUndefined,
     {| events :=
          [(databases_createDocument "db" "posts" (VStr "unique2")
              (VObj [("creator", VStr "u1"); ("caption", VStr "hello");
                     ("imageUrl", document0); ("imageId", VStr "65f1a");
                     ("location", VStr "Pune");
                     ("tags", VArr [VStr "art"; VStr "cats"; VStr "fun"])]),
            Throw network_error);
           (storage_getFilePreview "bucket" (VStr "65f1a")
              2000%float 2000%float "top" 100%float, Normal document0);
           (storage_createFile "bucket" (VStr "unique0") file0, Normal document0)];
        console := [network_error] |})
  /\ deleted_files (issued initial (snd (createPost (env_of sdk_readonly) post0 initial)))
     = [].
Proof. split; vm_compute; reflexivity. Qed.

(** ** C3: the file deletions of [updatePost] *)

(** X3.  Without a new file [updatePost] requests no file deletion. *)
Lemma updatePost_no_file (env : Env) (post : IUpdatePost.t) (w : World) :
  has_file (IUpdatePost.file post) = false ->
  deleted_files (issued w (snd (updatePost env post w))) = [].
Proof.
  intros Hnone. destruct w as [old k].
  exec; try congruence; issued_events; reflexivity.
Qed.

(** X4.  With a new file and a successful update, the old file is deleted
    once, and the deletion is the call that follows the update. *)
Lemma updatePost_deletes_old (env : Env) (post : IUpdatePost.t) (w w' : World) (v : value) :
  has_file (IUpdatePost.file post) = true ->
  updatePost_try env post w = (Normal v, w') ->
  updatePost env post w = (Normal v, w')
  /\ deleted_files (issued w w') = [VStr (IUpdatePost.imageId post)]
  /\ exists res data rest,
       issued w w'
       = (storage_deleteFile (storageId (appwriteConfig env))
            (VStr (IUpdatePost.imageId post)), res)
           :: (databases_updateDocument (databaseId (appwriteConfig env))
                 (postCollectionId (appwriteConfig env))
                 (IUpdatePost.postId post) data, Normal v)
           :: rest.
Proof.
  intros Hsome Htry. split.
  { unfold updatePost, try_catch. rewrite Htry. reflexivity. }
  revert Htry. destruct w as [old k].
  exec; try congruence; intros Htry; inversion Htry; subst; clear Htry;
    issued_events; (split; [reflexivity|]); repeat eexists.
Qed.

(** X5.  With a new file and an update that answers with a falsy value, the
    new file (the [imageId] that the update carried) is deleted, and
    nothing else. *)
Lemma updatePost_deletes_new (env : Env) (post : IUpdatePost.t) (w : World) :
  forall db coll id data r,
    has_file (IUpdatePost.file post) = true ->
    In (databases_updateDocument db coll id data, Normal r)
       (issued w (snd (updatePost env post w))) ->
    truthy r = false ->
    deleted_files (issued w (snd (updatePost env post w)))
    = [own_prop data "imageId"].
Proof.
  destruct w as [old k].
  exec; issued_events; intros db coll id data res Hsome Hin Hfalsy;
    in_events; try congruence; reflexivity.
Qed.

(** X6.  When the document update of [updatePost] throws, no file
    deletion is requested and the result is [undefined]: with a new
    file, the file just uploaded stays. *)
Lemma updatePost_no_cleanup_on_throw (env : Env) (post : IUpdatePost.t) (w : World) :
  forall db coll id data e,
    In (databases_updateDocument db coll id data, Throw e)
       (issued w (snd (updatePost env post w))) ->
    deleted_files (issued w (snd (updatePost env post w))) = []
    /\ fst (updatePost env post w) = Normal VUndefined.
Proof.
  destruct w as [old k].
  exec; issued_events; intros db coll id data e Hin; in_events;
    split; reflexivity.
Qed.

(** C3 (the defect).  On a service whose document writes fail by
    throwing, [updatePost] with a new file uploads it, fails on
    [databases.updateDocument], logs the error and returns [undefined]
    without requesting any file deletion: the replacement file that
    was just uploaded is left in storage. *)
Theorem updatePost_orphans_upload :
  has_file (IUpdatePost.file update0) = true
  /\ updatePost (env_of sdk_readonly) update0 initial
     = (Normal VUndefined,
        {| events :=
             [(databases_updateDocument "db" "posts" "p1"
                 (VObj [("caption", VStr "hello");
                        ("imageUrl", document0); ("imageId", VStr "65f1a");
                        ("location", VUndefined);
                        ("tags", VArr [])]),
               Throw network_error);
              (storage_getFilePreview "bucket" (VStr "65f1a")
                 2000%float 2000%float "top" 100%float, Normal document0);
              (storage_createFile "bucket" (VStr "unique0") file0, Normal document0)];
           console := [network_error] |})
  /\ deleted_files (issued initial (snd (updatePost (env_of sdk_readonly) update0 initial)))
     = [].
Proof. repeat split; vm_compute; reflexivity. Qed.

(** The compensating deletions at work: a preview that throws, a
    document write that answers [null], and a successful replacement. *)
Lemma compensating_deletes :
  deleted_files (issued initial
    (snd (createPost
            (env_of (fun _ c => match c with
                                | storage_getFilePreview _ _ _ _ _ _ => Throw network_error
                                | _ => Normal document0
                                end))
            post0 initial)))
  = [VStr "65f1a"]
  /\ deleted_files (issued initial
       (snd (updatePost
               (env_of (fun _ c => match c with
                                   | databases_updateDocument _ _ _ _ => Normal VNull
                                   | _ => Normal document0
                                   end))
               update0 initial)))
     = [VStr "65f1a"]
  /\ deleted_files (issued initial (snd (updatePost (env_of sdk_up) update0 initial)))
     = [VStr "old"].
Proof. repeat split; vm_compute; reflexivity. Qed.

(** ** The file deletions of [createPost], [updatePost] and [updateUser] *)

Lemma createPost_cleanup_witness :
  deleted_files (issued initial (snd (createPost (env_of sdk_preview_down) post0 initial)))
  = [own_prop document0 "$id"].
Proof.
  apply (createPost_cleanup (env_of sdk_preview_down) post0 initial
           "bucket" (VStr "unique0") file0 document0).
  - vm_compute. right. right. left. reflexivity.
  - reflexivity.
  - intros v. vm_compute. discriminate.
  - intros db coll doc data e. vm_compute. intros [H|[H|[H|[]]]]; discriminate H.
Defined.

Lemma createPost_no_cleanup_on_throw_witness :
  deleted_files (issued initial (snd (createPost (env_of sdk_readonly) post0 initial))) = []
  /\ fst (createPost (env_of sdk_readonly) post0 initial) = Normal VUndefined.
Proof.
  eapply (createPost_no_cleanup_on_throw (env_of sdk_readonly) post0 initial).
  vm_compute. left. reflexivity.
Defined.

Lemma updatePost_no_file_witness :
  deleted_files (issued initial (snd (updatePost (env_of sdk_up) update_without_file initial)))
  = [].
Proof.
  apply (updatePost_no_file (env_of sdk_up) update_without_file initial).
  reflexivity.
Defined.

Lemma updatePost_deletes_old_witness :
  updatePost (env_of sdk_up) update0 initial
  = (Normal document0, snd (updatePost_try (env_of sdk_up) update0 initial))
  /\ deleted_files (issued initial (snd (updatePost_try (env_of sdk_up) update0 initial)))
     = [VStr "old"]
  /\ exists res data rest,
       issued initial (snd (updatePost_try (env_of sdk_up) update0 initial))
       = (storage_deleteFile "bucket" (VStr "old"), res)
           :: (databases_updateDocument "db" "posts" "p1" data, Normal document0)
           :: rest.
Proof.
  apply (updatePost_deletes_old (env_of sdk_up) update0 initial
           (snd (updatePost_try (env_of sdk_up) update0 initial)) document0).
  - reflexivity.
  - vm_compute. reflexivity.
Defined.

Lemma updatePost_deletes_new_witness :
  deleted_files (issued initial (snd (updatePost (env_of sdk_update_null) update0 initial)))
  = [VStr "65f1a"].
Proof.
  apply (updatePost_deletes_new (env_of sdk_update_null) update0 initial
           "db" "posts" "p1"
           (VObj [("caption", VStr "hello"); ("imageUrl", document0);
                  ("imageId", VStr "65f1a"); ("location", VUndefined);
                  ("tags", VArr [])])
           VNull).
  - reflexivity.
  - vm_compute. right. left. reflexivity.
  - reflexivity.
Defined.

Lemma updatePost_no_cleanup_on_throw_witness :
  deleted_files (issued initial (snd (updatePost (env_of sdk_readonly) update0 initial))) = []
  /\ fst (updatePost (env_of sdk_readonly) update0 initial) = Normal VUndefined.
Proof.
  eapply (updatePost_no_cleanup_on_throw (env_of sdk_readonly) update0 initial).
  vm_compute. left. reflexivity.
Defined.

(** X7.  When [updateUser] succeeds, it has requested the deletion of
    the old file exactly when it was given a new file and the old
    [imageId] is not empty, and no other deletion; the value it returns
    is truthy. *)
Theorem updateUser_file_deletions
    (env : Env) (user : IUpdateUser.t) (w w' : World) (v : value) :
  updateUser_try env user w = (Normal v, w') ->
  updateUser env user w = (Normal v, w')
  /\ truthy v = true
  /\ deleted_files (issued w w')
     = if negb (IUpdateUser.imageId user =? "") && has_file (IUpdateUser.file user)
       then [VStr (IUpdateUser.imageId user)]
       else [].
Proof.
  intros Htry. split.
  { unfold updateUser, try_catch. rewrite Htry. reflexivity. }
  revert Htry. destruct w as [old k].
  exec; intros Htry; inversion Htry; subst; clear Htry; issued_events;
    (split; [assumption|]); simpl in *;
    repeat match goal with H : negb _ = _ |- _ => rewrite H end; reflexivity.
Qed.

Lemma updateUser_file_deletions_witness :
  updateUser (env_of sdk_up) profile0 initial
  = (Normal document0, snd (updateUser_try (env_of sdk_up) profile0 initial))
  /\ truthy document0 = true
  /\ deleted_files (issued initial (snd (updateUser_try (env_of sdk_up) profile0 initial)))
     = [].
Proof.
  apply (updateUser_file_deletions (env_of sdk_up) profile0 initial
           (snd (updateUser_try (env_of sdk_up) profile0 initial)) document0).
  vm_compute. reflexivity.
Defined.

(** X20.  When [createPost] succeeds it has made exactly three SDK
    calls (the upload, the preview and the document write, all
    answered with truthy values), has requested no file deletion and
    has logged nothing; the value it returns is truthy. *)
Theorem createPost_success_keeps_file
    (env : Env) (post : INewPost.t) (w w' : World) (v : value) :
  createPost_try env post w = (Normal v, w') ->
  truthy v = true
  /\ deleted_files (issued w w') = []
  /\ console w' = console w
  /\ exists fid uploaded url doc data,
       truthy uploaded = true /\ truthy url = true
       /\ issued w w'
          = [(databases_createDocument (databaseId (appwriteConfig env))
                (postCollectionId (appwriteConfig env)) doc data, Normal v);
             (storage_getFilePreview (storageId (appwriteConfig env))
                (own_prop uploaded "$id") 2000%float 2000%float "top" 100%float,
              Normal url);
             (storage_createFile (storageId (appwriteConfig env)) fid
                (first_file (INewPost.file post)), Normal uploaded)].
Proof.
  revert w' v. destruct w as [old k].
  exec; intros w' v Htry; inversion Htry; subst; clear Htry; issued_events.
  split; [assumption|]. split; [reflexivity|]. split; [reflexivity|].
  do 5 eexists. refine (conj _ (conj _ eq_refl)); assumption.
Qed.

Lemma createPost_success_keeps_file_witness :
  truthy document0 = true
  /\ deleted_files (issued initial (snd (createPost_try (env_of sdk_up) post0 initial))) = []
  /\ console (snd (createPost_try (env_of sdk_up) post0 initial)) = console initial
  /\ exists fid uploaded url doc data,
       truthy uploaded = true /\ truthy url = true
       /\ issued initial (snd (createPost_try (env_of sdk_up) post0 initial))
          = [(databases_createDocument "db" "posts" doc data, Normal document0);
             (storage_getFilePreview "bucket"
                (own_prop uploaded "$id") 2000%float 2000%float "top" 100%float,
              Normal url);
             (storage_createFile "bucket" fid (first_file [file0]), Normal uploaded)].
Proof.
  apply (createPost_success_keeps_file (env_of sdk_up) post0 initial
           (snd (createPost_try (env_of sdk_up) post0 initial)) document0).
  vm_compute. reflexivity.
Defined.

(** ** What the documents carry *)

(** X8.  Every document update that [updatePost] sends is for the
    post of the input and carries its caption and location.  Without a
    new file it carries the [imageId] and [imageUrl] of the input; with
    a new file it carries the [$id] of the file uploaded in this run and
    the preview URL obtained for it, both truthy. *)
Theorem updatePost_image_fields (env : Env) (post : IUpdatePost.t) (w : World) :
  forall db coll id data r,
    In (databases_updateDocument db coll id data, r)
       (issued w (snd (updatePost env post w))) ->
    id = IUpdatePost.postId post
    /\ own_prop data "caption" = VStr (IUpdatePost.caption post)
    /\ own_prop data "location" = of_option (IUpdatePost.location post)
    /\ if has_file (IUpdatePost.file post) then
         exists fid uploaded url,
           In (storage_createFile (storageId (appwriteConfig env)) fid
                 (first_file (IUpdatePost.file post)), Normal uploaded)
              (issued w (snd (updatePost env post w)))
           /\ In (storage_getFilePreview (storageId (appwriteConfig env))
                    (own_prop uploaded "$id") 2000%float 2000%float "top" 100%float,
                  Normal url)
                 (issued w (snd (updatePost env post w)))
           /\ truthy uploaded = true /\ truthy url = true
           /\ own_prop data "imageId" = own_prop uploaded "$id"
           /\ own_prop data "imageUrl" = url
       else
         own_prop data "imageId" = VStr (IUpdatePost.imageId post)
         /\ own_prop data "imageUrl" = IUpdatePost.imageUrl post.
Proof.
  destruct w as [old k].
  exec; issued_events; intros db coll id data res Hin; in_events;
    (split; [reflexivity|]); (split; [reflexivity|]); (split; [reflexivity|]);
    try (split; reflexivity);
    do 3 eexists; (split; [simpl; eauto 6|]); (split; [simpl; eauto 6|]);
    (split; [eassumption|]); (split; [eassumption|]); split; reflexivity.
Qed.

Lemma updatePost_image_fields_witness :
  own_prop (VObj [("caption", VStr "edited"); ("imageUrl", VStr "https://cdn/old");
                  ("imageId", VStr "old"); ("location", VStr "Pune");
                  ("tags", VArr [VStr "a"; VStr "b"])]) "imageId" = VStr "old"
  /\ own_prop (VObj [("caption", VStr "edited"); ("imageUrl", VStr "https://cdn/old");
                     ("imageId", VStr "old"); ("location", VStr "Pune");
                     ("tags", VArr [VStr "a"; VStr "b"])]) "imageUrl"
     = VStr "https://cdn/old".
Proof.
  refine (proj2 (proj2 (proj2
            (updatePost_image_fields (env_of sdk_up) update_without_file initial
               "db" "posts" "p1"
               (VObj [("caption", VStr "edited"); ("imageUrl", VStr "https://cdn/old");
                      ("imageId", VStr "old"); ("location", VStr "Pune");
                      ("tags", VArr [VStr "a"; VStr "b"])])
               (Normal document0) _)))).
  vm_compute. left. reflexivity.
Defined.

(** X9.  Every document that [createPost] writes goes to the post
    collection and is written after a successful upload of
    [post.file[0]] and a successful preview of the uploaded file: it
    carries the creator, caption, location and parsed tags of the
    input, the [$id] of the uploaded file and its preview URL. *)
Theorem createPost_document (env : Env) (post : INewPost.t) (w : World) :
  forall db coll id data r,
    In (databases_createDocument db coll id data, r)
       (issued w (snd (createPost env post w))) ->
    exists fid uploaded url,
      In (storage_createFile (storageId (appwriteConfig env)) fid
            (first_file (INewPost.file post)), Normal uploaded)
         (issued w (snd (createPost env post w)))
      /\ truthy uploaded = true
      /\ In (storage_getFilePreview (storageId (appwriteConfig env))
               (own_prop uploaded "$id") 2000%float 2000%float "top" 100%float,
             Normal url)
            (issued w (snd (createPost env post w)))
      /\ truthy url = true
      /\ coll = postCollectionId (appwriteConfig env)
      /\ data = VObj [("creator", VStr (INewPost.userId post));
                      ("caption", VStr (INewPost.caption post));
                      ("imageUrl", url);
                      ("imageId", own_prop uploaded "$id");
                      ("location", of_option (INewPost.location post));
                      ("tags", tags_value (INewPost.tags post))].
Proof.
  destruct w as [old k].
  exec; issued_events; intros db coll id data res Hin; in_events;
    do 3 eexists; (split; [simpl; eauto 6|]); (split; [eassumption|]);
    (split; [simpl; eauto 6|]); (split; [eassumption|]); split; reflexivity.
Qed.

Lemma createPost_document_witness :
  exists fid uploaded url,
    In (storage_createFile "bucket" fid (first_file [file0]), Normal uploaded)
       (issued initial (snd (createPost (env_of sdk_up) post0 initial)))
    /\ truthy uploaded = true
    /\ In (storage_getFilePreview "bucket"
             (own_prop uploaded "$id") 2000%float 2000%float "top" 100%float,
           Normal url)
          (issued initial (snd (createPost (env_of sdk_up) post0 initial)))
    /\ truthy url = true
    /\ "posts" = "posts"
    /\ VObj [("creator", VStr "u1"); ("caption", VStr "hello");
             ("imageUrl", document0); ("imageId", VStr "65f1a");
             ("location", VStr "Pune");
             ("tags", VArr [VStr "art"; VStr "cats"; VStr "fun"])]
       = VObj [("creator", VStr "u1"); ("caption", VStr "hello");
               ("imageUrl", url); ("imageId", own_prop uploaded "$id");
               ("location", of_option (Some "Pune"));
               ("tags", tags_value (Some "art, cats ,fun"))].
Proof.
  apply (createPost_document (env_of sdk_up) post0 initial
           "db" "posts" (VStr "unique2")
           (VObj [("creator", VStr "u1"); ("caption", VStr "hello");
                  ("imageUrl", document0); ("imageId", VStr "65f1a");
                  ("location", VStr "Pune");
                  ("tags", VArr [VStr "art"; VStr "cats"; VStr "fun"])])
           (Normal document0)).
  vm_compute. left. reflexivity.
Defined.

(** X17.  Every user document that [createUserAccount] writes goes to
    the user collection and is written after [account.create] answered
    with a truthy account and [avatars.getInitials] with an avatar: it
    carries the [$id], [name] and [email] of the account as the service
    returned them, the username of the input and the avatar.  The
    function then returns the response of that write, or [undefined]
    when the write threw. *)
Theorem createUserAccount_document (env : Env) (user : INewUser.t) (w : World) :
  forall db coll id data r,
    In (databases_createDocument db coll id data, r)
       (issued w (snd (createUserAccount env user w))) ->
    exists uid account avatar,
      In (account_create uid (INewUser.email user) (INewUser.password user)
            (INewUser.name user), Normal account)
         (issued w (snd (createUserAccount env user w)))
      /\ truthy account = true
      /\ In (avatars_getInitials (INewUser.name user), Normal avatar)
            (issued w (snd (createUserAccount env user w)))
      /\ coll = userCollectionId (appwriteConfig env)
      /\ data = VObj [("accountId", own_prop account "$id");
                      ("name", own_prop account "name");
                      ("email", own_prop account "email");
                      ("username", VStr (INewUser.username user));
                      ("imageUrl", avatar)]
      /\ fst (createUserAccount env user w)
         = Normal (match r with Normal newUser => newUser | Throw _ => VUndefined end).
Proof.
  destruct w as [old k].
  exec; issued_events; intros db coll id data res Hin; in_events;
    do 3 eexists; (split; [simpl; eauto 6|]); (split; [eassumption|]);
    (split; [simpl; eauto 6|]); repeat split; reflexivity.
Qed.

Lemma createUserAccount_document_witness :
  exists uid account avatar,
    In (account_create uid "ada@example.org" "secret12" "Ada", Normal account)
       (issued initial (snd (createUserAccount (env_of sdk_readonly) user0 initial)))
    /\ truthy account = true
    /\ In (avatars_getInitials "Ada", Normal avatar)
          (issued initial (snd (createUserAccount (env_of sdk_readonly) user0 initial)))
    /\ "users" = "users"
    /\ VObj [("accountId", VStr "65f1a"); ("name", VStr "Ada");
             ("email", VStr "ada@example.org"); ("username", VStr "ada");
             ("imageUrl", document0)]
       = VObj [("accountId", own_prop account "$id");
               ("name", own_prop account "name");
               ("email", own_prop account "email");
               ("username", VStr "ada");
               ("imageUrl", avatar)]
    /\ fst (createUserAccount (env_of sdk_readonly) user0 initial) = Normal VUndefined.
Proof.
  apply (createUserAccount_document (env_of sdk_readonly) user0 initial
           "db" "users" (VStr "unique2")
           (VObj [("accountId", VStr "65f1a"); ("name", VStr "Ada");
                  ("email", VStr "ada@example.org"); ("username", VStr "ada");
                  ("imageUrl", document0)])
           (Throw network_error)).
  vm_compute. left. reflexivity.
Defined.

(** X18.  The first SDK call of [createPost] is always the upload of
    [post.file[0]], which is [undefined] when the file list is empty:
    the function does not check that a file is present. *)
Theorem createPost_uploads_first_file (env : Env) (post : INewPost.t) (w : World) :
  last (map fst (issued w (snd (createPost env post w)))) account_get
  = storage_createFile (storageId (appwriteConfig env))
      (VStr (ID_unique env (events w))) (nth 0 (INewPost.file post) VUndefined).
Proof.
  destruct w as [old k].
  exec; issued_events; reflexivity.
Qed.

(** ** What the functions return and log *)

(** X10.  A function that checks its response, or returns a status
    object of its own, never returns a falsy value other than
    [undefined]: its result is [undefined] or truthy. *)
Theorem checked_result_truthy_or_undefined (env : Env) (c : ApiCall) (w : World) (v : value) :
  checked c = true ->
  fst (invoke env c w) = Normal v ->
  v = VUndefined \/ truthy v = true.
Proof.
  intros Hchecked. destruct w as [old k].
  destruct c; try discriminate Hchecked; clear Hchecked.
  all: try (generalize (getInfinitePosts_queries env pageParam) as queries; intros queries).
  all: try (generalize (getUsers_queries limit) as queries; intros queries).
  all: exec; intros Hres; inversion Hres; subst; auto.
Qed.

Lemma checked_result_truthy_or_undefined_witness :
  document0 = VUndefined \/ truthy document0 = true.
Proof.
  apply (checked_result_truthy_or_undefined (env_of sdk_up) (SearchPosts "cats")
           initial document0); reflexivity.
Defined.

(** X11.  For the checked functions other than [updatePost],
    [updateUser] and [deletePost], once the guard is passed: either the
    result is [undefined] and at least one line was logged, or the
    result is truthy and nothing was logged. *)
Theorem undefined_iff_logged (env : Env) (c : ApiCall) (w : World) :
  quiet_on_success c = true ->
  guard_passes c = true ->
  (fst (invoke env c w) = Normal VUndefined
   /\ 1 <= logged_lines w (snd (invoke env c w)))
  \/ (exists v, fst (invoke env c w) = Normal v /\ truthy v = true
                /\ console (snd (invoke env c w)) = console w).
Proof.
  intros Hquiet Hguard. destruct w as [old k].
  destruct c; try discriminate Hquiet; clear Hquiet; simpl in Hguard.
  all: try (generalize (getInfinitePosts_queries env pageParam) as queries; intros queries).
  all: try (generalize (getUsers_queries limit) as queries; intros queries).
  all: exec; try congruence;
    first [ left; split; [reflexivity|unfold logged_lines; cbn [console length]; lia]
          | right; eexists; repeat split; solve [eassumption|reflexivity] ].
Qed.

Lemma undefined_iff_logged_witness :
  (fst (invoke (env_of sdk_down) (CreatePost post0) initial) = Normal VUndefined
   /\ 1 <= logged_lines initial (snd (invoke (env_of sdk_down) (CreatePost post0) initial)))
  \/ (exists v, fst (invoke (env_of sdk_down) (CreatePost post0) initial) = Normal v
                /\ truthy v = true
                /\ console (snd (invoke (env_of sdk_down) (CreatePost post0) initial))
                   = console initial).
Proof.
  apply (undefined_iff_logged (env_of sdk_down) (CreatePost post0) initial);
    reflexivity.
Defined.

(** X15.  Past its guard, [deletePost] first deletes the document.
    Only when that call answers with a truthy status does it request
    the deletion of the file, and it then returns [{status: "Ok"}]
    whatever the file deletion answers; when the document deletion
    throws or answers with a falsy value, no file deletion is
    requested and the result is [undefined]. *)
Theorem deletePost_outcome (env : Env) (postId imageId : option string) (w : World) :
  guard_passes (DeletePost postId imageId) = true ->
  let document_delete :=
    databases_deleteDocument (databaseId (appwriteConfig env))
      (postCollectionId (appwriteConfig env)) (of_option postId) in
  let file_delete :=
    storage_deleteFile (storageId (appwriteConfig env)) (of_option imageId) in
  let run := issued w (snd (deletePost env postId imageId w)) in
  match sdk env (events w) document_delete with
  | Normal status =>
      if truthy status then
        fst (deletePost env postId imageId w) = Normal (VObj [("status", VStr "Ok")])
        /\ map fst run = [file_delete; document_delete]
      else
        fst (deletePost env postId imageId w) = Normal VUndefined
        /\ map fst run = [document_delete]
  | Throw _ =>
      fst (deletePost env postId imageId w) = Normal VUndefined
      /\ map fst run = [document_delete]
  end.
Proof.
  intros Hguard. simpl in Hguard. apply andb_true_iff in Hguard as [Hpost Himage].
  destruct w as [old k]. cbv zeta. cbn [events].
  unfold deletePost. rewrite !falsy_truthy, Hpost, Himage. cbn [negb orb].
  exec; issued_events; split; reflexivity.
Qed.

Lemma deletePost_outcome_witness :
  fst (deletePost (env_of sdk_down) (Some "p1") (Some "i1") initial) = Normal VUndefined
  /\ map fst (issued initial (snd (deletePost (env_of sdk_down) (Some "p1") (Some "i1") initial)))
     = [databases_deleteDocument "db" "posts" (VStr "p1")].
Proof.
  exact (deletePost_outcome (env_of sdk_down) (Some "p1") (Some "i1") initial eq_refl).
Defined.

(** X16.  [getCurrentUser] first looks the account up.  When the
    lookup throws or answers with a falsy value it returns [null]
    without querying the user collection; otherwise its second and last
    call lists the user collection with the single query
    [equal("accountId", account.$id)]. *)
Theorem getCurrentUser_account_lookup (env : Env) (w : World) :
  let run := issued w (snd (getCurrentUser env w)) in
  match sdk env (events w) account_get with
  | Normal account =>
      if truthy account then
        map fst run
        = [databases_listDocuments (databaseId (appwriteConfig env))
             (userCollectionId (appwriteConfig env))
             [Query_equal "accountId" (own_prop account "$id")];
           account_get]
      else
        fst (getCurrentUser env w) = Normal VNull /\ map fst run = [account_get]
  | Throw _ =>
      fst (getCurrentUser env w) = Normal VNull /\ map fst run = [account_get]
  end.
Proof.
  destruct w as [old k]. cbv zeta. cbn [events].
  exec; issued_events; try split; reflexivity.
Qed.

(** ** What the functions never do *)

(** X12.  The reading functions only issue reading calls
    ([account.get], [listDocuments], [getDocument], [getFilePreview]):
    they never create, update or delete anything on the service. *)
Theorem readers_only_read (env : Env) (c : ApiCall) (w : World) :
  read_only c = true ->
  forallb (fun ev => is_read (fst ev)) (issued w (snd (invoke env c w))) = true.
Proof.
  intros Hread. destruct w as [old k].
  destruct c; try discriminate Hread; clear Hread.
  all: try (generalize (getInfinitePosts_queries env pageParam) as queries; intros queries).
  all: try (generalize (getUsers_queries limit) as queries; intros queries).
  all: exec; issued_events; reflexivity.
Qed.

Lemma readers_only_read_witness :
  forallb (fun ev => is_read (fst ev))
    (issued initial (snd (invoke (env_of sdk_up) GetCurrentUser initial))) = true.
Proof.
  apply (readers_only_read (env_of sdk_up) GetCurrentUser initial). reflexivity.
Defined.

(** X13.  Only [deleteFile], [createPost], [updatePost], [deletePost]
    and [updateUser] ever request a file deletion: every other function
    leaves the storage files alone. *)
Theorem no_file_deletion_elsewhere (env : Env) (c : ApiCall) (w : World) :
  deletes_files c = false ->
  deleted_files (issued w (snd (invoke env c w))) = [].
Proof.
  intros Hdel. destruct w as [old k].
  destruct c; try discriminate Hdel; clear Hdel.
  all: try (generalize (getInfinitePosts_queries env pageParam) as queries; intros queries).
  all: try (generalize (getUsers_queries limit) as queries; intros queries).
  all: exec; issued_events; reflexivity.
Qed.

Lemma no_file_deletion_elsewhere_witness :
  deleted_files
    (issued initial (snd (invoke (env_of sdk_up) (DeleteSavedPost "s1") initial))) = [].
Proof.
  apply (no_file_deletion_elsewhere (env_of sdk_up) (DeleteSavedPost "s1") initial).
  reflexivity.
Defined.

(** X14.  Every database call of a function goes to the configured
    database and to the collection of that function (users, posts or
    saves), and every storage call to the configured bucket. *)
Theorem calls_well_targeted (env : Env) (c : ApiCall) (w : World) :
  forallb (fun ev => well_targeted (appwriteConfig env)
                       (collections_of (appwriteConfig env) c) (fst ev))
    (issued w (snd (invoke env c w))) = true.
Proof.
  destruct w as [old k].
  destruct c.
  all: try (generalize (getInfinitePosts_queries env pageParam) as queries; intros queries).
  all: try (generalize (getUsers_queries limit) as queries; intros queries).
  all: exec; issued_events; simpl; rewrite ?String.eqb_refl; reflexivity.
Qed.

(** ** More on tag parsing *)

Lemma remove_spaces_free (t : string) : free_of " "%char (remove_spaces t).
Proof.
  unfold free_of. induction t as [|c t IH]; simpl; [tauto|].
  destruct (Ascii.eqb_spec c " "%char) as [->|Hneq]; [exact IH|].
  simpl. intros [H|H]; [congruence|exact (IH H)].
Qed.

Lemma remove_spaces_fixed (s : string) :
  free_of " "%char s -> remove_spaces s = s.
Proof.
  unfold free_of. induction s as [|c s IH]; simpl; intros H; [reflexivity|].
  destruct (Ascii.eqb_spec c " "%char) as [->|Hneq]; [exfalso; auto|].
  rewrite IH; [reflexivity|]. intros Hin. apply H. right. exact Hin.
Qed.

Lemma split_chars (sep c : ascii) (s : string) :
  forall piece, In piece (split sep s) ->
                In c (list_ascii_of_string piece) ->
                In c (list_ascii_of_string s).
Proof.
  induction s as [|a s IH]; simpl; intros piece Hin Hc.
  - destruct Hin as [<-|[]]. exact Hc.
  - destruct (Ascii.eqb a sep).
    + destruct Hin as [<-|Hin]; [destruct Hc|]. right. eapply IH; eassumption.
    + pose proof (split_nonempty sep s) as Hne.
      destruct (split sep s) as [|p ps]; [congruence|].
      destruct Hin as [<-|Hin].
      * destruct Hc as [Hc|Hc]; [left; exact Hc|right].
        apply (IH p); [left; reflexivity|exact Hc].
      * right. apply (IH piece); [right; exact Hin|exact Hc].
Qed.

Lemma split_length (s : string) :
  length (split ","%char s) = S (count_commas s).
Proof.
  induction s as [|c s IH]; simpl; [reflexivity|].
  destruct (Ascii.eqb c ","%char); simpl; [rewrite IH; reflexivity|].
  pose proof (split_nonempty ","%char s) as Hne.
  destruct (split ","%char s); [congruence|exact IH].
Qed.

Lemma count_commas_remove_spaces (t : string) :
  count_commas (remove_spaces t) = count_commas t.
Proof.
  induction t as [|c t IH]; simpl; [reflexivity|].
  destruct (Ascii.eqb_spec c " "%char) as [->|Hneq]; simpl; [exact IH|].
  rewrite IH. reflexivity.
Qed.

(** X19.  For a tag string [t]: joining the parsed tags with commas
    gives back [t] without its spaces; no tag holds a comma or a space;
    there is one tag more than [t] has commas (so an empty or blank
    string gives one empty tag, not none); and the spaces of [t] do not
    matter. *)
Theorem parse_tags_round_trip (t : string) :
  join ","%char (parse_tags (Some t)) = remove_spaces t
  /\ Forall (fun tag => free_of ","%char tag /\ free_of " "%char tag)
            (parse_tags (Some t))
  /\ length (parse_tags (Some t)) = S (count_commas t)
  /\ parse_tags (Some (remove_spaces t)) = parse_tags (Some t).
Proof.
  simpl parse_tags.
  destruct (split_SplitOn ","%char (remove_spaces t)) as (_ & Hfree & Hjoin).
  split; [exact Hjoin|]. split; [|split].
  - rewrite Forall_forall in *. intros tag Hin. split; [exact (Hfree tag Hin)|].
    intros Hspace. apply (remove_spaces_free t).
    exact (split_chars ","%char " "%char _ tag Hin Hspace).
  - rewrite split_length. f_equal. apply count_commas_remove_spaces.
  - rewrite (remove_spaces_fixed (remove_spaces t)); [reflexivity|].
    apply remove_spaces_free.
Qed.
